(** * gcalendar-mcp: the HTTP calendar tool server

    A shallow embedding of [calendar_server_http.py]: the credential
    resolver [get_calendar_service], the dispatcher [call_tool] and the two
    calendar operations [list_events] and [create_event], together with the
    part of Python's [datetime] module they rely on (integer [timedelta]
    construction, [datetime + timedelta], [isoformat]).

    Python code is modelled with explicit state passing: a [world] holds the
    process environment, the file system and the clock, and every call
    appends the effects it performs to a chronological trace.  Exceptions
    are values of type [exn]; a computation returns either a value or the
    exception it raised, together with the world it left behind. *)

From Stdlib Require Import ZArith Lia.
From stdpp Require Import gmap strings list pretty.

Local Open Scope string_scope.
Local Open Scope Z_scope.

(** ** Exceptions and results *)

(** The exception classes the server can observe.  All of them derive from
    Python's [Exception], [HTTPException] (FastAPI / Starlette) included. *)
Inductive exn :=
  | HTTPException (status_code : Z) (detail : string)
  | KeyError (key : string)
  | TypeError (msg : string)
  | ValueError (msg : string)
  | OverflowError (msg : string)
  | FileNotFoundError (msg : string)
  | LibraryError (msg : string).

Inductive result (A : Type) :=
  | OK (a : A)
  | Raise (e : exn).
Arguments OK {A} a.
Arguments Raise {A} e.

Definition result_bind {A B} (r : result A) (k : A -> result B) : result B :=
  match r with
  | OK a => k a
  | Raise e => Raise e
  end.

(** ** Python's [datetime] module, as far as the server uses it *)

Record timedelta := mk_timedelta {
  td_days : Z;
  td_seconds : Z;
  td_microseconds : Z
}.

(** [timedelta.__new__] on integer arguments: carry microseconds into
    seconds and seconds into days (floor division), then refuse more than
    999999999 days either way. *)
Definition timedelta_new (days seconds microseconds : Z) : result timedelta :=
  let us := microseconds mod 1000000 in
  let s := seconds + microseconds / 1000000 in
  let d := days + s / 86400 in
  let s := s mod 86400 in
  if 999999999 <? Z.abs d
  then Raise (OverflowError ("timedelta # of days is too large: " +:+ pretty d))
  else OK (mk_timedelta d s us).

(** [timedelta(days=d)] and [timedelta(minutes=m)]. *)
Definition timedelta_of_days (d : Z) : result timedelta := timedelta_new d 0 0.
Definition timedelta_of_minutes (m : Z) : result timedelta :=
  timedelta_new 0 (m * 60) 0.

(** The exact length of a [timedelta], in microseconds. *)
Definition td_total_us (t : timedelta) : Z :=
  (td_days t * 86400 + td_seconds t) * 1000000 + td_microseconds t.

(** A [datetime]; [tzinfo] is [None] for a naive value and the fixed UTC
    offset of its [timezone] otherwise. *)
Record datetime := mk_datetime {
  year : Z;
  month : Z;
  day : Z;
  hour : Z;
  minute : Z;
  second : Z;
  microsecond : Z;
  tzinfo : option timedelta
}.

Definition MAXORDINAL : Z := 3652059.

Definition DAYS_IN_MONTH : list Z :=
  [-1; 31; 28; 31; 30; 31; 30; 31; 31; 30; 31; 30; 31].

Definition DAYS_BEFORE_MONTH : list Z :=
  [-1; 0; 31; 59; 90; 120; 151; 181; 212; 243; 273; 304; 334].

(** Table lookup [t[i]]; the callers below only index with 1..12. *)
Definition table_get (t : list Z) (i : Z) : Z := default 0 (t !! Z.to_nat i).

Definition is_leap (y : Z) : bool :=
  (y mod 4 =? 0) && (negb (y mod 100 =? 0) || (y mod 400 =? 0)).

Definition days_before_year (y : Z) : Z :=
  let y := y - 1 in
  y * 365 + y / 4 - y / 100 + y / 400.

Definition days_in_month (y m : Z) : Z :=
  if (m =? 2) && is_leap y then 29 else table_get DAYS_IN_MONTH m.

Definition days_before_month (y m : Z) : Z :=
  table_get DAYS_BEFORE_MONTH m + (if (2 <? m) && is_leap y then 1 else 0).

Definition ymd2ord (y m d : Z) : Z :=
  days_before_year y + days_before_month y m + d.

Definition DI400Y : Z := 146097.
Definition DI100Y : Z := 36524.
Definition DI4Y : Z := 1461.

(** [_ord2ymd]: ordinal to (year, month, day), 01-Jan-0001 being day 1. *)
Definition ord2ymd (n : Z) : Z * Z * Z :=
  let n := n - 1 in
  let n400 := n / DI400Y in
  let n := n mod DI400Y in
  let y := n400 * 400 + 1 in
  let n100 := n / DI100Y in
  let n := n mod DI100Y in
  let n4 := n / DI4Y in
  let n := n mod DI4Y in
  let n1 := n / 365 in
  let n := n mod 365 in
  let y := y + (n100 * 100 + n4 * 4 + n1) in
  if (n1 =? 4) || (n100 =? 4) then (y - 1, 12, 31)
  else
    let leapyear := (n1 =? 3) && (negb (n4 =? 24) || (n100 =? 3)) in
    let m := Z.shiftr (n + 50) 5 in
    let preceding :=
      table_get DAYS_BEFORE_MONTH m + (if (2 <? m) && leapyear then 1 else 0) in
    if n <? preceding then
      let m := m - 1 in
      let preceding :=
        preceding
        - (table_get DAYS_IN_MONTH m + (if (m =? 2) && leapyear then 1 else 0)) in
      (y, m, n - preceding + 1)
    else (y, m, n - preceding + 1).

Definition toordinal (dt : datetime) : Z := ymd2ord (year dt) (month dt) (day dt).

(** The month and day part of [ord2ymd], for day [n] (from 0) of a year. *)
Definition month_day (leapyear : bool) (n : Z) : Z * Z :=
  let m := Z.shiftr (n + 50) 5 in
  let preceding :=
    table_get DAYS_BEFORE_MONTH m + (if (2 <? m) && leapyear then 1 else 0) in
  if n <? preceding then
    let m := m - 1 in
    let preceding :=
      preceding
      - (table_get DAYS_IN_MONTH m + (if (m =? 2) && leapyear then 1 else 0)) in
    (m, n - preceding + 1)
  else (m, n - preceding + 1).

(** What [ord2ymd] asserts about that split: the month exists, the day is
    one of its days, and the days before it add up. *)
Definition month_day_ok (leapyear : bool) (n : Z) : bool :=
  let '(m, d) := month_day leapyear n in
  (1 <=? m) && (m <=? 12) && (1 <=? d)
  && (d <=? (if (m =? 2) && leapyear then 29 else table_get DAYS_IN_MONTH m))
  && (table_get DAYS_BEFORE_MONTH m + (if (2 <? m) && leapyear then 1 else 0) + d
      =? n + 1).

(** [datetime.__add__]: the date and time of day are turned into one
    [timedelta], the operand is added, and the sum is split again; a day
    number outside 1..[MAXORDINAL] (years 1 to 9999) is an overflow.  The
    time zone of the left operand is kept. *)
Definition datetime_add (self : datetime) (other : timedelta) : result datetime :=
  result_bind
    (timedelta_new (toordinal self)
       (hour self * 3600 + minute self * 60 + second self) (microsecond self))
    (fun delta =>
  result_bind
    (timedelta_new (td_days delta + td_days other)
       (td_seconds delta + td_seconds other)
       (td_microseconds delta + td_microseconds other))
    (fun delta =>
  let hh := td_seconds delta / 3600 in
  let rem := td_seconds delta mod 3600 in
  let mm := rem / 60 in
  let ss := rem mod 60 in
  if (0 <? td_days delta) && (td_days delta <=? MAXORDINAL) then
    let '(y, m, d) := ord2ymd (td_days delta) in
    OK (mk_datetime y m d hh mm ss (td_microseconds delta) (tzinfo self))
  else Raise (OverflowError "date value out of range"))).

(** [%0<width>d] for a non-negative integer: zero padding on the left, and
    all the digits when there are more than [width] of them. *)
Definition zero_pad (width : nat) (n : Z) : string :=
  let s := pretty n in
  String.concat "" (replicate (width - String.length s) "0") +:+ s.

(** [_format_time] with [timespec='auto']. *)
Definition format_time (hh mm ss us : Z) : string :=
  zero_pad 2 hh +:+ ":" +:+ zero_pad 2 mm +:+ ":" +:+ zero_pad 2 ss
  +:+ (if us =? 0 then "" else "." +:+ zero_pad 6 us).

(** [_format_offset]: [+HH:MM], with [:SS] and [.ffffff] only when the offset
    has seconds or microseconds. *)
Definition format_offset (off : option timedelta) : string :=
  match off with
  | None => ""
  | Some off =>
      let sign := if td_days off <? 0 then "-" else "+" in
      let us := if td_days off <? 0 then - td_total_us off else td_total_us off in
      let hh := us / 3600000000 in
      let rest := us mod 3600000000 in
      let mm := rest / 60000000 in
      let ss := rest mod 60000000 in
      sign +:+ zero_pad 2 hh +:+ ":" +:+ zero_pad 2 mm
      +:+ (if ss =? 0 then ""
           else ":" +:+ zero_pad 2 (ss / 1000000)
                +:+ (if ss mod 1000000 =? 0 then ""
                     else "." +:+ zero_pad 6 (ss mod 1000000)))
  end.

(** The date and time part of [isoformat()], without the offset. *)
Definition isoformat_naive (dt : datetime) : string :=
  zero_pad 4 (year dt) +:+ "-" +:+ zero_pad 2 (month dt) +:+ "-"
  +:+ zero_pad 2 (day dt) +:+ "T"
  +:+ format_time (hour dt) (minute dt) (second dt) (microsecond dt).

Definition isoformat (dt : datetime) : string :=
  isoformat_naive dt +:+ format_offset (tzinfo dt).

(** The instant a [datetime] denotes on its own wall clock, in microseconds
    since the start of day 0 of the proleptic Gregorian calendar. *)
Definition dt_micros (dt : datetime) : Z :=
  (toordinal dt * 86400 + hour dt * 3600 + minute dt * 60 + second dt) * 1000000
  + microsecond dt.


(** The range checks of the [datetime] constructor ([_check_date_fields],
    [_check_time_fields]) and of [timezone] (an offset strictly between -24
    and +24 hours). *)
Definition check_date_fields (y m d : Z) : result unit :=
  if negb ((1 <=? y) && (y <=? 9999))
  then Raise (ValueError "year must be in 1..9999")
  else if negb ((1 <=? m) && (m <=? 12))
  then Raise (ValueError "month must be in 1..12")
  else if negb ((1 <=? d) && (d <=? days_in_month y m))
  then Raise (ValueError ("day must be in 1.." +:+ pretty (days_in_month y m)))
  else OK tt.

Definition check_time_fields (hh mm ss us : Z) : result unit :=
  if negb ((0 <=? hh) && (hh <=? 23))
  then Raise (ValueError "hour must be in 0..23")
  else if negb ((0 <=? mm) && (mm <=? 59))
  then Raise (ValueError "minute must be in 0..59")
  else if negb ((0 <=? ss) && (ss <=? 59))
  then Raise (ValueError "second must be in 0..59")
  else if negb ((0 <=? us) && (us <=? 999999))
  then Raise (ValueError "microsecond must be in 0..999999")
  else OK tt.

Definition check_tzinfo (tz : option timedelta) : result unit :=
  match tz with
  | None => OK tt
  | Some off =>
      if (-86400000000 <? td_total_us off) && (td_total_us off <? 86400000000)
      then OK tt
      else Raise (ValueError
        "offset must be a timedelta strictly between -timedelta(hours=24) and timedelta(hours=24).")
  end.

Definition datetime_new (dt : datetime) : result datetime :=
  result_bind (check_tzinfo (tzinfo dt)) (fun _ =>
  result_bind (check_date_fields (year dt) (month dt) (day dt)) (fun _ =>
  result_bind
    (check_time_fields (hour dt) (minute dt) (second dt) (microsecond dt))
    (fun _ => OK dt))).

Definition valid_datetime (dt : datetime) : Prop :=
  1 <= year dt <= 9999 /\ 1 <= month dt <= 12
  /\ 1 <= day dt <= days_in_month (year dt) (month dt)
  /\ 0 <= hour dt <= 23 /\ 0 <= minute dt <= 59 /\ 0 <= second dt <= 59
  /\ 0 <= microsecond dt <= 999999.

(** ** Python values, the world and the platform *)

(** The JSON values of a tool-call argument that the model covers: [null],
    booleans, integers and strings.  Numbers with a fraction, arrays and
    objects are not represented; no statement below speaks about them. *)
Inductive pyval :=
  | VNone
  | VBool (b : bool)
  | VInt (n : Z)
  | VStr (s : string).

Definition type_name (v : pyval) : string :=
  match v with
  | VNone => "NoneType"
  | VBool _ => "bool"
  | VInt _ => "int"
  | VStr _ => "str"
  end.

(** [str(e)]: Starlette prints an [HTTPException] as [status: detail], a
    [KeyError] prints the [repr] of its key, the others their message. *)
Definition str_exn (e : exn) : string :=
  match e with
  | HTTPException status detail => pretty status +:+ ": " +:+ detail
  | KeyError key => "'" +:+ key +:+ "'"
  | TypeError msg | ValueError msg | OverflowError msg
  | FileNotFoundError msg | LibraryError msg => msg
  end.

(** [str(x)] of an optional string, as an f-string renders it. *)
Definition str_opt (o : option string) : string := default "None" o.

(** [google.oauth2.credentials.Credentials]. *)
Record credentials := mk_credentials {
  token : option string;
  refresh_token : option string;
  token_uri : option string;
  client_id : option string;
  client_secret : option string;
  scopes : list string
}.

(** The handle [build('calendar', 'v3', credentials=creds)] returns. *)
Record service := mk_service { service_credentials : credentials }.

(** [InstalledAppFlow], loaded from a client-secrets file. *)
Record flow := mk_flow { flow_config : string; flow_scopes : list string }.

(** Parameters of [events().list(...)]. *)
Record list_query := mk_list_query {
  calendarId : string;
  timeMin : string;
  timeMax : string;
  maxResults : Z;
  singleEvents : bool;
  orderBy : string
}.

(** An event resource as the provider returns it: the keys the server reads,
    each possibly absent. *)
Record event_start := mk_event_start {
  start_dateTime : option string;
  start_date : option string
}.

Record event := mk_event {
  ev_start : option event_start;
  ev_summary : option string
}.

Record events_result := mk_events_result { items : option (list event) }.

(** The body of [events().insert(...)]: [start] and [end] hold a [dateTime]
    and, optionally, a [timeZone]. *)
Record event_time := mk_event_time {
  dateTime : string;
  timeZone : option string
}.

Record event_body := mk_event_body {
  eb_summary : pyval;
  eb_start : event_time;
  eb_end : event_time
}.

Record created_event := mk_created_event { htmlLink : option string }.

(** What a call does to the outside, in the order it happens. *)
Inductive effect :=
  | FsExists (path : string)
  | FsRead (path : string)
  | FsWrite (path : string) (content : string)
  | ConsentFlow (f : flow)
  | EventsList (svc : service) (q : list_query)
  | EventsInsert (svc : service) (calendar : string) (body : event_body).

Definition is_provider_call (e : effect) : bool :=
  match e with
  | EventsList _ _ | EventsInsert _ _ _ => true
  | _ => false
  end.

Definition is_fs_access (e : effect) : bool :=
  match e with
  | FsExists _ | FsRead _ | FsWrite _ _ => true
  | _ => false
  end.

Definition is_interactive (e : effect) : bool :=
  match e with
  | ConsentFlow _ => true
  | _ => false
  end.

Record world := mk_world {
  environ : gmap string string;
  files : gmap string string;
  ticks : nat;
  trace : list effect
}.

(** Everything the server calls but does not define: where the script is
    installed, the clock, the ISO-8601 parser of the running Python, the
    Google auth library and the calendar provider.  A library failure is an
    error message ([inl]); the model raises it as a [LibraryError]. *)
Record platform := mk_platform {
  SCRIPT_DIR : string;
  clock : nat -> datetime;
  parse_isoformat : string -> option datetime;
  from_authorized_user_info : string -> list string -> string + credentials;
  credentials_valid : credentials -> bool;
  load_client_secrets : string -> list string -> string + flow;
  consent : flow -> string + credentials;
  to_json : credentials -> string;
  events_list_execute : service -> list_query -> string + events_result;
  events_insert_execute : service -> string -> event_body -> string + created_event
}.

(** ** The monad of effectful Python code *)

Definition M (A : Type) : Type := world -> result A * world.

Definition ret {A} (a : A) : M A := fun w => (OK a, w).
Definition raise {A} (e : exn) : M A := fun w => (Raise e, w).
Definition bind {A B} (m : M A) (k : A -> M B) : M B :=
  fun w =>
    match m w with
    | (OK a, w') => k a w'
    | (Raise e, w') => (Raise e, w')
    end.

(** [try: m except Exception as e: h e]. *)
Definition try_except {A} (m : M A) (h : exn -> M A) : M A :=
  fun w =>
    match m w with
    | (OK a, w') => (OK a, w')
    | (Raise e, w') => h e w'
    end.

Definition lift {A} (r : result A) : M A := fun w => (r, w).

Definition lift_lib {A} (r : string + A) : M A :=
  match r with
  | inl msg => raise (LibraryError msg)
  | inr a => ret a
  end.

Definition emit (e : effect) : M unit :=
  fun w => (OK tt, mk_world (environ w) (files w) (ticks w) (trace w ++ [e])).

Notation "x <- m ;; k" := (bind m (fun x => k))
  (at level 100, m at next level, right associativity).
Notation "m ;;; k" := (bind m (fun _ => k))
  (at level 100, right associativity).

(** [os.environ.get(name)]. *)
Definition environ_get (name : string) : M (option string) :=
  fun w => (OK (environ w !! name), w).

(** [os.path.exists(path)]. *)
Definition path_exists (path : string) : M bool :=
  emit (FsExists path) ;;;
  fun w => (OK (bool_decide (is_Some (files w !! path))), w).

Definition read_file (path : string) : M string :=
  emit (FsRead path) ;;;
  fun w =>
    match files w !! path with
    | Some content => (OK content, w)
    | None => (Raise (FileNotFoundError
                 ("[Errno 2] No such file or directory: '" +:+ path +:+ "'")), w)
    end.

(** [with open(path, 'w') as f: f.write(content)]. *)
Definition write_file (path content : string) : M unit :=
  emit (FsWrite path content) ;;;
  fun w => (OK tt, mk_world (environ w) (<[path := content]> (files w))
                     (ticks w) (trace w)).

(** Truth value of an [Optional[str]]: [None] and [''] are false. *)
Definition truthy (o : option string) : bool :=
  match o with
  | Some s => negb (String.eqb s "")
  | None => false
  end.

(** [os.path.join(dir, name)] for a relative [name]. *)
Definition path_join (dir name : string) : string :=
  if String.eqb dir "" then name
  else if String.eqb (String.substring (String.length dir - 1) 1 dir) "/"
  then dir +:+ name
  else dir +:+ "/" +:+ name.

Definition SCOPES : list string := ["https://www.googleapis.com/auth/calendar"].

Section Server.

Variable P : platform.

Definition TOKEN_FILE : string := path_join (SCRIPT_DIR P) "token.json".
Definition CREDENTIALS_FILE : string := path_join (SCRIPT_DIR P) "credentials.json".

(** [datetime.utcnow()]: the next reading of the clock, a naive value. *)
Definition utcnow : M datetime :=
  fun w => (OK (clock P (ticks w)),
            mk_world (environ w) (files w) (S (ticks w)) (trace w)).

(** [datetime.fromisoformat(s)]: the parsed fields go through the
    constructor's range checks. *)
Definition fromisoformat (v : pyval) : result datetime :=
  match v with
  | VStr s =>
      match parse_isoformat P s with
      | Some dt => datetime_new dt
      | None => Raise (ValueError ("Invalid isoformat string: '" +:+ s +:+ "'"))
      end
  | _ => Raise (TypeError "fromisoformat: argument must be str")
  end.

(** The integer a [timedelta] keyword argument stands for; [bool] is a
    subclass of [int]. *)
Definition timedelta_arg (component : string) (v : pyval) : result Z :=
  match v with
  | VInt n => OK n
  | VBool b => OK (if b then 1 else 0)
  | _ => Raise (TypeError ("unsupported type for timedelta " +:+ component
                           +:+ " component: " +:+ type_name v))
  end.

(** [Credentials.from_authorized_user_file(path, scopes)]. *)
Definition from_authorized_user_file (path : string) (sc : list string)
  : M credentials :=
  content <- read_file path ;;
  lift_lib (from_authorized_user_info P content sc).

(** [InstalledAppFlow.from_client_secrets_file(path, scopes)]. *)
Definition from_client_secrets_file (path : string) (sc : list string) : M flow :=
  content <- read_file path ;;
  lift_lib (load_client_secrets P content sc).

(** [flow.run_local_server(port=0)]. *)
Definition run_local_server (f : flow) : M credentials :=
  emit (ConsentFlow f) ;;;
  lift_lib (consent P f).

(** [build('calendar', 'v3', credentials=creds)], taken by its result, the
    service handle.  What the SDK does inside this call is not part of the
    model, and the call is taken to succeed. *)
Definition build (creds : credentials) : M service := ret (mk_service creds).

(** *** [get_calendar_service] *)

(** Lines 52-68, development mode: the token file if it holds a valid
    credential, the interactive consent flow otherwise. *)
Definition local_credentials : M credentials :=
  token_exists <- path_exists TOKEN_FILE ;;
  creds <- (if token_exists
            then c <- from_authorized_user_file TOKEN_FILE SCOPES ;; ret (Some c)
            else ret None) ;;
  let authenticate : M credentials :=
    secrets_exist <- path_exists CREDENTIALS_FILE ;;
    if negb secrets_exist then
      raise (FileNotFoundError
        "credentials.json not found. Please add Google OAuth credentials.")
    else
      f <- from_client_secrets_file CREDENTIALS_FILE SCOPES ;;
      c <- run_local_server f ;;
      write_file TOKEN_FILE (to_json P c) ;;;
      ret c in
  match creds with
  | Some c => if credentials_valid P c then ret c else authenticate
  | None => authenticate
  end.

Definition get_calendar_service : M service :=
  refresh_token <- environ_get "GOOGLE_REFRESH_TOKEN" ;;
  client_id <- environ_get "GOOGLE_CLIENT_ID" ;;
  client_secret <- environ_get "GOOGLE_CLIENT_SECRET" ;;
  creds <- (if truthy refresh_token && truthy client_id && truthy client_secret
            then
              (* Production mode: use environment variables *)
              ret (mk_credentials None refresh_token
                     (Some "https://oauth2.googleapis.com/token")
                     client_id client_secret SCOPES)
            else
              (* Development mode: use local files *)
              local_credentials) ;;
  build creds.

(** *** [list_events] *)

Definition NO_EVENTS : string := "No upcoming events found.".
Definition NEWLINE : string := String (Ascii.ascii_of_nat 10) "".

(** Lines 150-162: the service, the two clock readings and the query. *)
Definition list_events_query (days_ahead : pyval) : M (service * list_query) :=
  service <- get_calendar_service ;;
  t <- utcnow ;;
  let now := isoformat t +:+ "Z" in
  t' <- utcnow ;;
  delta <- lift (result_bind (timedelta_arg "days" days_ahead) timedelta_of_days) ;;
  later_dt <- lift (datetime_add t' delta) ;;
  let later := isoformat later_dt +:+ "Z" in
  ret (service, mk_list_query "primary" now later 10 true "startTime").

(** [events().list(...).execute()]. *)
Definition events_list (svc : service) (q : list_query) : M events_result :=
  emit (EventsList svc q) ;;;
  lift_lib (events_list_execute P svc q).

(** One pass of the loop of lines 170-172. *)
Definition format_event (ev : event) : result string :=
  match ev_start ev with
  | None => Raise (KeyError "start")
  | Some st =>
      let start :=
        match start_dateTime st with
        | Some s => Some s
        | None => start_date st
        end in
      match ev_summary ev with
      | None => Raise (KeyError "summary")
      | Some summary => OK (str_opt start +:+ ": " +:+ summary)
      end
  end.

Fixpoint format_lines (events : list event) : result (list string) :=
  match events with
  | [] => OK []
  | ev :: rest =>
      result_bind (format_event ev) (fun line =>
      result_bind (format_lines rest) (fun lines => OK (line :: lines)))
  end.

(** Lines 164-174. *)
Definition format_events (r : events_result) : result string :=
  let events := default [] (items r) in
  match events with
  | [] => OK NO_EVENTS
  | _ => result_bind (format_lines events)
           (fun lines => OK (String.concat NEWLINE lines))
  end.

Definition list_events (days_ahead : pyval) : M string :=
  request <- list_events_query days_ahead ;;
  events_result <- events_list (fst request) (snd request) ;;
  lift (format_events events_result).

(** *** [create_event] *)

(** Lines 181-198: from the arguments to the event sent to the provider. *)
Definition create_event_payload (summary start_time duration_minutes : pyval)
  : result event_body :=
  result_bind (fromisoformat start_time) (fun start_dt =>
  result_bind (result_bind (timedelta_arg "minutes" duration_minutes)
                 timedelta_of_minutes) (fun delta =>
  result_bind (datetime_add start_dt delta) (fun end_dt =>
  match tzinfo start_dt with
  | None =>
      OK (mk_event_body summary
            (mk_event_time (isoformat start_dt) (Some "America/Los_Angeles"))
            (mk_event_time (isoformat end_dt) (Some "America/Los_Angeles")))
  | Some _ =>
      OK (mk_event_body summary
            (mk_event_time (isoformat start_dt) None)
            (mk_event_time (isoformat end_dt) None))
  end))).

(** [events().insert(calendarId=..., body=...).execute()]. *)
Definition events_insert (svc : service) (calendar : string) (body : event_body)
  : M created_event :=
  emit (EventsInsert svc calendar body) ;;;
  lift_lib (events_insert_execute P svc calendar body).

Definition create_event (summary start_time duration_minutes : pyval) : M string :=
  service <- get_calendar_service ;;
  event <- lift (create_event_payload summary start_time duration_minutes) ;;
  created <- events_insert service "primary" event ;;
  ret ("Event created: " +:+ str_opt (htmlLink created)).

(** *** The dispatcher *)

Record ToolCallRequest := mk_request {
  name : string;
  arguments : gmap string pyval
}.

Record content_item := mk_content { type : string; text : string }.
Record tool_response := mk_response { content : list content_item }.

(** [d[key]]. *)
Definition subscript (d : gmap string pyval) (key : string) : M pyval :=
  match d !! key with
  | Some v => ret v
  | None => raise (KeyError key)
  end.

Definition call_tool (request : ToolCallRequest) : M tool_response :=
  try_except
    (if String.eqb (name request) "list_events" then
       let days_ahead := default (VInt 7) (arguments request !! "days_ahead") in
       result <- list_events days_ahead ;;
       ret (mk_response [mk_content "text" result])
     else if String.eqb (name request) "create_event" then
       summary <- subscript (arguments request) "summary" ;;
       start_time <- subscript (arguments request) "start_time" ;;
       let duration_minutes :=
         default (VInt 60) (arguments request !! "duration_minutes") in
       result <- create_event summary start_time duration_minutes ;;
       ret (mk_response [mk_content "text" result])
     else
       raise (HTTPException 400 ("Unknown tool: " +:+ name request)))
    (fun e => raise (HTTPException 500 (str_exn e))).

End Server.

(** The status line FastAPI answers with: 200 for a returned value, the
    status of a raised [HTTPException], 500 for anything else. *)
Definition http_status {A} (r : result A) : Z :=
  match r with
  | OK _ => 200
  | Raise (HTTPException status _) => status
  | Raise _ => 500
  end.

(** ** A reference platform *)

(** A parser for the two formats [create_event]'s docstring names,
    [2024-12-25T10:00:00] and [2024-12-25T10:00:00-07:00], on which every
    version of [datetime.fromisoformat] agrees. *)
Definition digit_value (c : Ascii.ascii) : option Z :=
  let n := Z.of_nat (Ascii.nat_of_ascii c) in
  if (48 <=? n) && (n <=? 57) then Some (n - 48) else None.

Fixpoint digits_value (acc : Z) (s : string) : option Z :=
  match s with
  | EmptyString => Some acc
  | String c rest =>
      match digit_value c with
      | Some d => digits_value (acc * 10 + d) rest
      | None => None
      end
  end.

Definition number_at (s : string) (pos len : nat) : option Z :=
  let t := String.substring pos len s in
  if Nat.eqb (String.length t) len then digits_value 0 t else None.

Definition char_at (s : string) (pos : nat) (c : string) : bool :=
  String.eqb (String.substring pos 1 s) c.

(** [timezone(timedelta(seconds=s))]. *)
Definition offset_of_seconds (s : Z) : timedelta :=
  mk_timedelta (s / 86400) (s mod 86400) 0.

Definition parse_isoformat_basic (s : string) : option datetime :=
  if negb (char_at s 4 "-" && char_at s 7 "-" && char_at s 10 "T"
           && char_at s 13 ":" && char_at s 16 ":")
  then None
  else
    y ← number_at s 0 4;
    m ← number_at s 5 2;
    d ← number_at s 8 2;
    hh ← number_at s 11 2;
    mm ← number_at s 14 2;
    ss ← number_at s 17 2;
    if Nat.eqb (String.length s) 19 then Some (mk_datetime y m d hh mm ss 0 None)
    else if Nat.eqb (String.length s) 25 && char_at s 22 ":" then
      oh ← number_at s 20 2;
      om ← number_at s 23 2;
      if negb ((oh <=? 23) && (om <=? 59)) then None
      else if char_at s 19 "+" then
        Some (mk_datetime y m d hh mm ss 0
                (Some (offset_of_seconds (oh * 3600 + om * 60))))
      else if char_at s 19 "-" then
        Some (mk_datetime y m d hh mm ss 0
                (Some (offset_of_seconds (- (oh * 3600 + om * 60)))))
      else None
    else None.

(** A platform with that parser, a clock that advances one microsecond per
    reading from 2024-01-01T00:00:00, an auth library that accepts any
    non-empty token file and any client-secrets file, and a provider with an
    empty calendar. *)
Definition reference_platform : platform := {|
  SCRIPT_DIR := "/app";
  clock := fun n => mk_datetime 2024 1 1 0 0 0 (Z.of_nat n) None;
  parse_isoformat := parse_isoformat_basic;
  from_authorized_user_info := fun content sc =>
    if String.eqb content ""
    then inl "Expecting value: line 1 column 1 (char 0)"
    else inr (mk_credentials (Some content) None None None None sc);
  credentials_valid := fun c => bool_decide (is_Some (token c));
  load_client_secrets := fun content sc => inr (mk_flow content sc);
  consent := fun f =>
    inr (mk_credentials (Some "access") (Some "refresh")
           (Some "https://oauth2.googleapis.com/token")
           (Some "id") (Some "secret") (flow_scopes f));
  to_json := fun c => default "" (refresh_token c);
  events_list_execute := fun _ _ => inr (mk_events_result (Some []));
  events_insert_execute := fun _ _ _ =>
    inr (mk_created_event (Some "https://www.google.com/calendar/event?eid=1"))
|}.

(** A production environment: the three variables set, nothing on disk. *)
Definition production_world : world := {|
  environ := <["GOOGLE_REFRESH_TOKEN" := "1//refresh"]>
             (<["GOOGLE_CLIENT_ID" := "id.apps.googleusercontent.com"]>
             (<["GOOGLE_CLIENT_SECRET" := "secret"]> ∅));
  files := ∅;
  ticks := 0;
  trace := []
|}.

(** The reference platform with two events in the calendar, one timed and
    one lasting a whole day. *)
Definition busy_platform : platform := {|
  SCRIPT_DIR := SCRIPT_DIR reference_platform;
  clock := clock reference_platform;
  parse_isoformat := parse_isoformat reference_platform;
  from_authorized_user_info := from_authorized_user_info reference_platform;
  credentials_valid := credentials_valid reference_platform;
  load_client_secrets := load_client_secrets reference_platform;
  consent := consent reference_platform;
  to_json := to_json reference_platform;
  events_list_execute := fun _ _ =>
    inr (mk_events_result (Some
      [mk_event (Some (mk_event_start (Some "2024-01-02T09:00:00-08:00") None))
         (Some "Standup");
       mk_event (Some (mk_event_start None (Some "2024-01-03")))
         (Some "Holiday")]));
  events_insert_execute := events_insert_execute reference_platform
|}.

(** The reference platform with a provider that ignores [maxResults] and
    returns twelve all-day events. *)
Definition crowded_platform : platform := {|
  SCRIPT_DIR := SCRIPT_DIR reference_platform;
  clock := clock reference_platform;
  parse_isoformat := parse_isoformat reference_platform;
  from_authorized_user_info := from_authorized_user_info reference_platform;
  credentials_valid := credentials_valid reference_platform;
  load_client_secrets := load_client_secrets reference_platform;
  consent := consent reference_platform;
  to_json := to_json reference_platform;
  events_list_execute := fun _ _ =>
    inr (mk_events_result (Some
      (replicate 12
         (mk_event (Some (mk_event_start None (Some "2024-01-02")))
            (Some "Busy")))));
  events_insert_execute := events_insert_execute reference_platform
|}.

(** The service handle resolved in [production_world]. *)
Definition production_service : service :=
  mk_service (mk_credentials None (Some "1//refresh")
    (Some "https://oauth2.googleapis.com/token")
    (Some "id.apps.googleusercontent.com") (Some "secret") SCOPES).

(** The event of the specification's example, and one with a UTC offset that
    ends on the next day. *)
Definition standup_body : event_body :=
  mk_event_body (VStr "Standup")
    (mk_event_time "2024-12-25T10:00:00" (Some "America/Los_Angeles"))
    (mk_event_time "2024-12-25T10:30:00" (Some "America/Los_Angeles")).

Definition new_year_body : event_body :=
  mk_event_body (VStr "Standup")
    (mk_event_time "2024-12-31T23:45:00-07:00" None)
    (mk_event_time "2025-01-01T00:15:00-07:00" None).

(** A development machine whose token file is empty: no variable set, no
    client-secrets file. *)
Definition broken_token_world : world := {|
  environ := ∅;
  files := <["/app/token.json" := ""]> ∅;
  ticks := 0;
  trace := []
|}.

(** The same environment with an empty refresh token. *)
Definition empty_token_world : world := {|
  environ := <["GOOGLE_REFRESH_TOKEN" := ""]> (environ production_world);
  files := ∅;
  ticks := 0;
  trace := []
|}.

(** The instants a [datetime] can hold: 0001-01-01T00:00:00 up to
    9999-12-31T23:59:59.999999. *)
Definition in_datetime_range (us : Z) : Prop :=
  86400000000 <= us < (MAXORDINAL + 1) * 86400000000.

(** The environment path is available: the three variables are set and
    none of them is empty. *)
Definition env_available (w : world) : bool :=
  truthy (environ w !! "GOOGLE_REFRESH_TOKEN")
  && truthy (environ w !! "GOOGLE_CLIENT_ID")
  && truthy (environ w !! "GOOGLE_CLIENT_SECRET").

(** The three variables are present in the environment, whatever they hold. *)
Definition env_all_present (w : world) : Prop :=
  is_Some (environ w !! "GOOGLE_REFRESH_TOKEN")
  /\ is_Some (environ w !! "GOOGLE_CLIENT_ID")
  /\ is_Some (environ w !! "GOOGLE_CLIENT_SECRET").

Definition credential_variables : list string :=
  ["GOOGLE_REFRESH_TOKEN"; "GOOGLE_CLIENT_ID"; "GOOGLE_CLIENT_SECRET"].

Definition with_environ (env : gmap string string) (w : world) : world :=
  mk_world env (files w) (ticks w) (trace w).

(** The token file holds a credential the auth library loads and finds valid. *)
Definition token_usable (P : platform) (w : world) : Prop :=
  exists content c,
    files w !! TOKEN_FILE P = Some content
    /\ from_authorized_user_info P content SCOPES = inr c
    /\ credentials_valid P c = true.

(** The token file is absent, or it loads to a credential that is not valid. *)
Definition token_unusable (P : platform) (w : world) : Prop :=
  files w !! TOKEN_FILE P = None
  \/ exists content c,
       files w !! TOKEN_FILE P = Some content
       /\ from_authorized_user_info P content SCOPES = inr c
       /\ credentials_valid P c = false.

(** The provider returns no more events than [maxResults] asks for. *)
Definition provider_honours_limit (P : platform) : Prop :=
  forall svc q r,
    0 <= maxResults q ->
    events_list_execute P svc q = inr r ->
    Z.of_nat (length (default [] (items r))) <= maxResults q.

(** A computation that only appends to the trace, none of it a provider
    call, and leaves the clock and the environment alone. *)
Definition no_provider_call {A} (m : M A) : Prop :=
  forall w, exists evs,
    trace (snd (m w)) = (trace w ++ evs)%list
    /\ forallb (fun e => negb (is_provider_call e)) evs = true
    /\ ticks (snd (m w)) = ticks w
    /\ environ (snd (m w)) = environ w.

(** A computation whose result and effects do not depend on the environment. *)
Definition environ_blind {A} (m : M A) : Prop :=
  forall w env,
    m (with_environ env w) = (fst (m w), with_environ env (snd (m w))).

Fixpoint has_char (c : Ascii.ascii) (s : string) : bool :=
  match s with
  | EmptyString => false
  | String a rest => Ascii.eqb a c || has_char c rest
  end.

Definition COLON : Ascii.ascii := Ascii.ascii_of_nat 58.

(** ** The remaining endpoints and the bootstrap helper *)

(** What [GET /debug] returns. *)
Record debug_info := mk_debug_info {
  has_refresh_token : bool;
  has_client_id : bool;
  has_client_secret : bool;
  client_id_preview : string;
  refresh_token_preview : string
}.

(** [os.environ.get(name, 'NOT_SET')[:20] + "..."], on the characters of an
    ASCII value. *)
Definition preview (value : option string) : string :=
  String.substring 0 20 (default "NOT_SET" value) +:+ "...".

(** [debug_env], lines 73-82; the dictionary is built in source order. *)
Definition debug_env : M debug_info :=
  refresh_token <- environ_get "GOOGLE_REFRESH_TOKEN" ;;
  client_id <- environ_get "GOOGLE_CLIENT_ID" ;;
  client_secret <- environ_get "GOOGLE_CLIENT_SECRET" ;;
  client_id' <- environ_get "GOOGLE_CLIENT_ID" ;;
  refresh_token' <- environ_get "GOOGLE_REFRESH_TOKEN" ;;
  ret (mk_debug_info (truthy refresh_token) (truthy client_id)
         (truthy client_secret) (preview client_id') (preview refresh_token')).

(** The tool catalog of [GET /tools]: JSON-schema style descriptions. *)
Record property_schema := mk_property {
  prop_type : string;
  prop_description : string;
  prop_default : option Z
}.

Record input_schema := mk_input_schema {
  schema_type : string;
  schema_properties : list (string * property_schema);
  schema_required : option (list string)
}.

Record tool := mk_tool {
  tool_name : string;
  tool_description : string;
  tool_inputSchema : input_schema
}.

Record tools_listing := mk_tools_listing { tools : list tool }.

(** [list_tools], lines 84-127. *)
Definition list_tools : tools_listing :=
  mk_tools_listing
    [ mk_tool "list_events" "List upcoming calendar events"
        (mk_input_schema "object"
           [("days_ahead",
             mk_property "integer" "Number of days ahead to look for events"
               (Some 7))]
           None);
      mk_tool "create_event" "Create a calendar event"
        (mk_input_schema "object"
           [("summary", mk_property "string" "Event title/summary" None);
            ("start_time",
             mk_property "string"
               "Start time in format: 2024-12-25T10:00:00 or 2024-12-25T10:00:00-07:00"
               None);
            ("duration_minutes",
             mk_property "integer" "Event duration in minutes" (Some 60))]
           (Some ["summary"; "start_time"])) ].

(** The arguments a tool's schema requires ([[]] without a [required] key)
    and the default it declares for an argument, if any. *)
Definition required_arguments (t : tool) : list string :=
  default [] (schema_required (tool_inputSchema t)).

Definition declared_default (t : tool) (arg : string) : option Z :=
  match List.find (fun p => String.eqb (fst p) arg)
          (schema_properties (tool_inputSchema t)) with
  | Some (_, p) => prop_default p
  | None => None
  end.

(** [auth_helper.py]: the dictionary [get_refresh_token] returns. *)
Record token_data := mk_token_data {
  data_refresh_token : option string;
  data_client_id : option string;
  data_client_secret : option string;
  data_token_uri : option string
}.

(** [auth_helper.CREDENTIALS_FILE]: relative to the working directory. *)
Definition HELPER_CREDENTIALS_FILE : string := "credentials.json".

(** [auth_helper.get_refresh_token], lines 13-27. *)
Definition get_refresh_token (P : platform) : M token_data :=
  f <- from_client_secrets_file P HELPER_CREDENTIALS_FILE SCOPES ;;
  creds <- run_local_server P f ;;
  ret (mk_token_data (refresh_token creds) (client_id creds)
         (client_secret creds) (token_uri creds)).

(** The block of [get_calendar_service] that obtains fresh credentials
    (lines 58-68), on its own. *)
Definition authenticate (P : platform) : M credentials :=
  secrets_exist <- path_exists (CREDENTIALS_FILE P) ;;
  if negb secrets_exist then
    raise (FileNotFoundError
      "credentials.json not found. Please add Google OAuth credentials.")
  else
    f <- from_client_secrets_file P (CREDENTIALS_FILE P) SCOPES ;;
    c <- run_local_server P f ;;
    write_file (TOKEN_FILE P) (to_json P c) ;;;
    ret c.

Definition add_effects (evs : list effect) (w : world) : world :=
  mk_world (environ w) (files w) (ticks w) (trace w ++ evs).

(** The effects a run added to the trace. *)
Definition new_effects (w w' : world) : list effect :=
  drop (length (trace w)) (trace w').

(** The reference platform with a provider that refuses every call, and
    with a calendar whose second event has no title. *)
Definition failing_platform : platform := {|
  SCRIPT_DIR := SCRIPT_DIR reference_platform;
  clock := clock reference_platform;
  parse_isoformat := parse_isoformat reference_platform;
  from_authorized_user_info := from_authorized_user_info reference_platform;
  credentials_valid := credentials_valid reference_platform;
  load_client_secrets := load_client_secrets reference_platform;
  consent := consent reference_platform;
  to_json := to_json reference_platform;
  events_list_execute := fun _ _ => inl "quota exceeded";
  events_insert_execute := fun _ _ _ => inl "quota exceeded"
|}.

Definition untitled_platform : platform := {|
  SCRIPT_DIR := SCRIPT_DIR reference_platform;
  clock := clock reference_platform;
  parse_isoformat := parse_isoformat reference_platform;
  from_authorized_user_info := from_authorized_user_info reference_platform;
  credentials_valid := credentials_valid reference_platform;
  load_client_secrets := load_client_secrets reference_platform;
  consent := consent reference_platform;
  to_json := to_json reference_platform;
  events_list_execute := fun _ _ =>
    inr (mk_events_result (Some
      [mk_event (Some (mk_event_start (Some "2024-01-02T09:00:00-08:00") None))
         (Some "Standup");
       mk_event (Some (mk_event_start None (Some "2024-01-03"))) None]));
  events_insert_execute := events_insert_execute reference_platform
|}.

(** The query [list_events] sends from [production_world] on the reference
    clock, for one week ahead. *)
Definition week_query : list_query :=
  mk_list_query "primary" "2024-01-01T00:00:00Z" "2024-01-08T00:00:00.000001Z"
    10 true "startTime".

(** The operator's working directory when running the helper: the client
    secrets downloaded from the provider, nothing else. *)
Definition helper_world : world := {|
  environ := ∅;
  files := <["credentials.json" := "{}"]> ∅;
  ticks := 0;
  trace := []
|}.

(** The reference platform with a provider whose answer to an insertion
    carries no link. *)
Definition linkless_platform : platform := {|
  SCRIPT_DIR := SCRIPT_DIR reference_platform;
  clock := clock reference_platform;
  parse_isoformat := parse_isoformat reference_platform;
  from_authorized_user_info := from_authorized_user_info reference_platform;
  credentials_valid := credentials_valid reference_platform;
  load_client_secrets := load_client_secrets reference_platform;
  consent := consent reference_platform;
  to_json := to_json reference_platform;
  events_list_execute := events_list_execute reference_platform;
  events_insert_execute := fun _ _ _ => inr (mk_created_event None)
|}.

(** The key whose subscript fails first on an incomplete event. *)
Definition missing_key (ev : event) : string :=
  match ev_start ev with
  | None => "start"
  | Some _ => "summary"
  end.

(** How many of some effects are provider calls, and computations that add
    at most [n] of them to the trace. *)
Definition provider_calls (evs : list effect) : nat :=
  length (List.filter is_provider_call evs).

Definition provider_calls_at_most (n : nat) {A} (m : M A) : Prop :=
  forall w, exists evs,
    trace (snd (m w)) = (trace w ++ evs)%list /\ (provider_calls evs <= n)%nat.

(** An event with the two keys [list_events] subscripts. *)
Definition complete_event (ev : event) : Prop :=
  is_Some (ev_start ev) /\ is_Some (ev_summary ev).

(** A development machine before the first login: the client secrets are on
    disk, the token file is not. *)
Definition development_world : world := {|
  environ := ∅;
  files := <["/app/credentials.json" := "{}"]> ∅;
  ticks := 0;
  trace := []
|}.

(** * Properties *)

(** ** The calendar arithmetic of [datetime] *)

Lemma month_day_ok_all leapyear :
  forallb (month_day_ok leapyear) (seqZ 0 365) = true.
Proof. destruct leapyear; vm_compute; reflexivity. Qed.

Lemma month_day_spec leapyear n :
  0 <= n < 365 -> month_day_ok leapyear n = true.
Proof.
  intros Hn.
  pose proof (month_day_ok_all leapyear) as Hall.
  rewrite forallb_forall in Hall. apply Hall.
  apply list_elem_of_In, elem_of_seqZ. lia.
Qed.

Lemma is_leap_cycle a b c d :
  0 <= b <= 3 -> 0 <= c <= 24 -> 0 <= d <= 3 ->
  is_leap (a * 400 + 1 + (b * 100 + c * 4 + d))
  = (d =? 3) && (negb (c =? 24) || (b =? 3)).
Proof.
  intros Hb Hc Hd. unfold is_leap.
  repeat match goal with
  | |- context [?x =? ?y] => destruct (Z.eqb_spec x y)
  end; simpl; try reflexivity; exfalso;
  repeat match goal with
  | H : context [?x mod ?y] |- _ =>
      let q := fresh "q" in let r := fresh "r" in
      pose proof (Z.div_mod x y ltac:(lia));
      pose proof (Z.mod_pos_bound x y ltac:(lia));
      generalize dependent (x mod y); generalize dependent (x / y); intros
  end; lia.
Qed.

Lemma days_before_year_cycle a b c d :
  0 <= b <= 3 -> 0 <= c <= 24 -> 0 <= d <= 3 ->
  days_before_year (a * 400 + 1 + (b * 100 + c * 4 + d))
  = a * 146097 + b * 36524 + c * 1461 + d * 365.
Proof.
  intros Hb Hc Hd. unfold days_before_year.
  replace (a * 400 + 1 + (b * 100 + c * 4 + d) - 1)
    with (a * 400 + b * 100 + c * 4 + d) by lia.
  assert (E4 : (a * 400 + b * 100 + c * 4 + d) / 4 = a * 100 + b * 25 + c).
  { symmetry. apply (Z.div_unique _ _ _ d); lia. }
  assert (E100 : (a * 400 + b * 100 + c * 4 + d) / 100 = a * 4 + b).
  { symmetry. apply (Z.div_unique _ _ _ (c * 4 + d)); lia. }
  assert (E400 : (a * 400 + b * 100 + c * 4 + d) / 400 = a).
  { symmetry. apply (Z.div_unique _ _ _ (b * 100 + c * 4 + d)); lia. }
  rewrite E4, E100, E400. lia.
Qed.

Lemma ord2ymd_month_day n :
  ord2ymd n =
  let n0 := n - 1 in
  let n400 := n0 / DI400Y in
  let r400 := n0 mod DI400Y in
  let n100 := r400 / DI100Y in
  let r100 := r400 mod DI100Y in
  let n4 := r100 / DI4Y in
  let r4 := r100 mod DI4Y in
  let n1 := r4 / 365 in
  let r1 := r4 mod 365 in
  let y := n400 * 400 + 1 + (n100 * 100 + n4 * 4 + n1) in
  if (n1 =? 4) || (n100 =? 4) then (y - 1, 12, 31)
  else
    let '(m, d) :=
      month_day ((n1 =? 3) && (negb (n4 =? 24) || (n100 =? 3))) r1 in
    (y, m, d).
Proof.
  unfold ord2ymd, month_day. cbv zeta.
  repeat match goal with |- context [if ?b then _ else _] => destruct b end;
    reflexivity.
Qed.

Lemma ord2ymd_spec n :
  exists y m d,
    ord2ymd n = (y, m, d) /\ ymd2ord y m d = n
    /\ 1 <= m <= 12 /\ 1 <= d <= days_in_month y m.
Proof.
  rewrite ord2ymd_month_day. cbv zeta.
  unfold DI400Y, DI100Y, DI4Y.
  set (n0 := n - 1).
  pose proof (Z.div_mod n0 146097 ltac:(lia)) as E400.
  pose proof (Z.mod_pos_bound n0 146097 ltac:(lia)) as B400.
  set (n400 := n0 / 146097) in *. set (r400 := n0 mod 146097) in *.
  pose proof (Z.div_mod r400 36524 ltac:(lia)) as E100.
  pose proof (Z.mod_pos_bound r400 36524 ltac:(lia)) as B100.
  set (n100 := r400 / 36524) in *. set (r100 := r400 mod 36524) in *.
  pose proof (Z.div_mod r100 1461 ltac:(lia)) as E4.
  pose proof (Z.mod_pos_bound r100 1461 ltac:(lia)) as B4.
  set (n4 := r100 / 1461) in *. set (r4 := r100 mod 1461) in *.
  pose proof (Z.div_mod r4 365 ltac:(lia)) as E1.
  pose proof (Z.mod_pos_bound r4 365 ltac:(lia)) as B1.
  set (n1 := r4 / 365) in *. set (r1 := r4 mod 365) in *.
  clearbody n400 r400 n100 r100 n4 r4 n1 r1.
  assert (0 <= n100 <= 4) by lia.
  assert (0 <= n4 <= 24) by lia.
  assert (0 <= n1 <= 4) by lia.
  destruct ((n1 =? 4) || (n100 =? 4)) eqn:Hlast.
  - (* last day of a leap year *)
    exists (n400 * 400 + 1 + (n100 * 100 + n4 * 4 + n1) - 1), 12, 31.
    split; [reflexivity|].
    assert (Hleap : is_leap (n400 * 400 + 1 + (n100 * 100 + n4 * 4 + n1) - 1) = true).
    { apply orb_true_iff in Hlast as [Hl|Hl]; apply Z.eqb_eq in Hl.
      - replace (n400 * 400 + 1 + (n100 * 100 + n4 * 4 + n1) - 1)
          with (n400 * 400 + 1 + (n100 * 100 + n4 * 4 + 3)) by lia.
        rewrite is_leap_cycle by lia.
        destruct (Z.eqb_spec n4 24); [lia|reflexivity].
      - replace (n400 * 400 + 1 + (n100 * 100 + n4 * 4 + n1) - 1)
          with (n400 * 400 + 1 + (3 * 100 + 24 * 4 + 3)) by lia.
        rewrite is_leap_cycle by lia. reflexivity. }
    unfold ymd2ord, days_in_month, days_before_month.
    rewrite Hleap. simpl.
    change (table_get DAYS_BEFORE_MONTH 12) with 334.
    change (table_get DAYS_IN_MONTH 12) with 31.
    split; [|lia].
    apply orb_true_iff in Hlast as [Hl|Hl]; apply Z.eqb_eq in Hl.
    + replace (n400 * 400 + 1 + (n100 * 100 + n4 * 4 + n1) - 1)
        with (n400 * 400 + 1 + (n100 * 100 + n4 * 4 + 3)) by lia.
      rewrite days_before_year_cycle by lia. lia.
    + replace (n400 * 400 + 1 + (n100 * 100 + n4 * 4 + n1) - 1)
        with (n400 * 400 + 1 + (3 * 100 + 24 * 4 + 3)) by lia.
      rewrite days_before_year_cycle by lia. lia.
  - apply orb_false_iff in Hlast as [Hl1 Hl2].
    apply Z.eqb_neq in Hl1, Hl2.
    pose proof (month_day_spec ((n1 =? 3) && (negb (n4 =? 24) || (n100 =? 3))) r1 B1) as Hmd.
    unfold month_day_ok in Hmd.
    rewrite <- (is_leap_cycle n400 n100 n4 n1) in * by lia.
    destruct (month_day _ r1) as [m d].
    exists (n400 * 400 + 1 + (n100 * 100 + n4 * 4 + n1)), m, d.
    split; [reflexivity|].
    repeat (apply andb_true_iff in Hmd as [Hmd ?]).
    unfold ymd2ord, days_in_month, days_before_month.
    rewrite days_before_year_cycle by lia.
    set (leap := is_leap _) in *. clearbody leap.
    split; [|lia].
    lia.
Qed.

Lemma datetime_new_valid dt r : datetime_new dt = OK r -> r = dt /\ valid_datetime dt.
Proof.
  unfold datetime_new, check_tzinfo, check_date_fields, check_time_fields, valid_datetime.
  intros H.
  repeat match type of H with
  | context [match ?o with Some _ => _ | None => _ end] => destruct o; simpl in H
  | context [if ?b then _ else _] => destruct b eqn:?; simpl in H
  end; try discriminate; injection H as <-; split; [reflexivity|lia | reflexivity|lia].
Qed.

Lemma month_cases m : 1 <= m <= 12 ->
  m = 1 \/ m = 2 \/ m = 3 \/ m = 4 \/ m = 5 \/ m = 6 \/ m = 7 \/ m = 8
  \/ m = 9 \/ m = 10 \/ m = 11 \/ m = 12.
Proof. lia. Qed.

(** Replace every lookup in the month tables by its value. *)
Ltac eval_tables :=
  repeat match goal with
  | H : context [table_get ?t ?i] |- _ =>
      let v := eval vm_compute in (table_get t i) in
      change (table_get t i) with v in H
  | |- context [table_get ?t ?i] =>
      let v := eval vm_compute in (table_get t i) in
      change (table_get t i) with v
  end.

Lemma days_before_month_bound y m d :
  1 <= m <= 12 -> 1 <= d <= days_in_month y m ->
  1 <= days_before_month y m + d <= 365 + (if is_leap y then 1 else 0).
Proof.
  intros Hm Hd. unfold days_before_month, days_in_month in *.
  destruct (is_leap y);
    destruct (month_cases m Hm) as [->|[->|[->|[->|[->|[->|[->|[->|[->|[->|[->| ->]]]]]]]]]]];
    eval_tables; simpl in *; lia.
Qed.

Lemma days_before_year_mono y1 y2 :
  y1 <= y2 -> days_before_year y1 + 365 * (y2 - y1) <= days_before_year y2.
Proof.
  intros H. unfold days_before_year. Z.div_mod_to_equations. lia.
Qed.

Lemma days_in_year y :
  days_before_year (y + 1) = days_before_year y + 365 + (if is_leap y then 1 else 0).
Proof.
  unfold days_before_year, is_leap.
  replace (y + 1 - 1) with y by lia.
  repeat match goal with
  | |- context [?x =? ?z] => destruct (Z.eqb_spec x z)
  end; simpl; Z.div_mod_to_equations; lia.
Qed.

Lemma toordinal_range dt :
  valid_datetime dt -> 1 <= toordinal dt <= MAXORDINAL.
Proof.
  intros (Hy & Hm & Hd & _). unfold toordinal, ymd2ord, MAXORDINAL.
  pose proof (days_before_month_bound _ _ _ Hm Hd) as Hb.
  pose proof (days_in_year (year dt)) as Hn.
  pose proof (days_before_year_mono 1 (year dt) ltac:(lia)) as H1.
  pose proof (days_before_year_mono (year dt + 1) 10000 ltac:(lia)) as H2.
  change (days_before_year 1) with 0 in H1.
  change (days_before_year 10000) with 3652059 in H2.
  destruct (is_leap (year dt)); lia.
Qed.

Lemma ord2ymd_year n y m d :
  ord2ymd n = (y, m, d) -> 1 <= n <= MAXORDINAL -> 1 <= y <= 9999.
Proof.
  intros E Hn.
  destruct (ord2ymd_spec n) as (y' & m' & d' & E' & Ho & Hm & Hd).
  rewrite E in E'. injection E' as <- <- <-.
  unfold ymd2ord, MAXORDINAL in *.
  pose proof (days_before_month_bound _ _ _ Hm Hd) as Hb.
  pose proof (days_in_year y) as Hy.
  assert (~ y <= 0).
  { intros Hc. pose proof (days_before_year_mono (y + 1) 1 ltac:(lia)) as H1.
    change (days_before_year 1) with 0 in H1. destruct (is_leap y); lia. }
  assert (~ 10000 <= y).
  { intros Hc. pose proof (days_before_year_mono 10000 y ltac:(lia)) as H1.
    change (days_before_year 10000) with 3652059 in H1. lia. }
  lia.
Qed.

Lemma timedelta_new_spec d s us t :
  timedelta_new d s us = OK t ->
  td_total_us t = (d * 86400 + s) * 1000000 + us
  /\ 0 <= td_seconds t < 86400 /\ 0 <= td_microseconds t < 1000000
  /\ -999999999 <= td_days t <= 999999999.
Proof.
  unfold timedelta_new, td_total_us.
  destruct (_ <? _) eqn:Hov; [discriminate|].
  intros [= <-]. simpl. apply Z.ltb_ge in Hov.
  Z.div_mod_to_equations. lia.
Qed.

Lemma timedelta_new_ok d s us :
  -999999999 * 86400000000 <= (d * 86400 + s) * 1000000 + us < 1000000000 * 86400000000 ->
  exists t, timedelta_new d s us = OK t.
Proof.
  intros H. unfold timedelta_new.
  destruct (_ <? _) eqn:Hov; [|eauto].
  apply Z.ltb_lt in Hov. exfalso. Z.div_mod_to_equations. lia.
Qed.

(** Adding a [timedelta] is exact, keeps the time zone and yields a
    well-formed [datetime]. *)
Lemma datetime_add_exact self other r :
  datetime_add self other = OK r ->
  dt_micros r = dt_micros self + td_total_us other
  /\ tzinfo r = tzinfo self /\ valid_datetime r.
Proof.
  unfold datetime_add.
  destruct (timedelta_new (toordinal self) _ _) as [d1|] eqn:E1; [|discriminate].
  simpl.
  destruct (timedelta_new (td_days d1 + _) _ _) as [d2|] eqn:E2; [|discriminate].
  simpl.
  destruct (_ && _) eqn:Hr; [|discriminate].
  apply andb_true_iff in Hr as [Hlo Hhi].
  apply Z.ltb_lt in Hlo. apply Z.leb_le in Hhi.
  destruct (ord2ymd_spec (td_days d2)) as (y & m & d & E & Ho & Hm & Hd).
  pose proof (ord2ymd_year _ _ _ _ E ltac:(lia)) as Hy.
  rewrite E. intros [= <-].
  apply timedelta_new_spec in E1 as (T1 & _).
  apply timedelta_new_spec in E2 as (T2 & Hs & Hu & _).
  unfold dt_micros, toordinal, valid_datetime, td_total_us in *. simpl.
  rewrite Ho.
  split; [|split; [reflexivity|]].
  - Z.div_mod_to_equations. lia.
  - Z.div_mod_to_equations. lia.
Qed.

Lemma datetime_add_ok self other :
  valid_datetime self ->
  -999999999 <= td_days other <= 999999999 ->
  0 <= td_seconds other < 86400 -> 0 <= td_microseconds other < 1000000 ->
  86400000000 <= dt_micros self + td_total_us other < (MAXORDINAL + 1) * 86400000000 ->
  exists r, datetime_add self other = OK r.
Proof.
  intros Hv Hd Hs Hu Hr. unfold datetime_add.
  pose proof (toordinal_range _ Hv) as Ho.
  destruct Hv as (_ & _ & _ & Hh & Hm & Hsec & Hus).
  unfold MAXORDINAL in *.
  destruct (timedelta_new_ok (toordinal self)
              (hour self * 3600 + minute self * 60 + second self)
              (microsecond self) ltac:(lia)) as [d1 E1].
  rewrite E1. simpl.
  apply timedelta_new_spec in E1 as (T1 & Hs1 & Hu1 & Hd1).
  unfold dt_micros, td_total_us in *.
  destruct (timedelta_new_ok (td_days d1 + td_days other)
              (td_seconds d1 + td_seconds other)
              (td_microseconds d1 + td_microseconds other) ltac:(lia)) as [d2 E2].
  rewrite E2. simpl.
  apply timedelta_new_spec in E2 as (T2 & Hs2 & Hu2 & Hd2).
  unfold td_total_us in *.
  replace ((0 <? td_days d2) && (td_days d2 <=? 3652059)) with true
    by (symmetry; apply andb_true_iff; split; [apply Z.ltb_lt|apply Z.leb_le]; lia).
  destruct (ord2ymd (td_days d2)) as [[y m] d]. eauto.
Qed.

Lemma days_before_month_inj y m1 d1 m2 d2 :
  1 <= m1 <= 12 -> 1 <= d1 <= days_in_month y m1 ->
  1 <= m2 <= 12 -> 1 <= d2 <= days_in_month y m2 ->
  days_before_month y m1 + d1 = days_before_month y m2 + d2 ->
  m1 = m2 /\ d1 = d2.
Proof.
  intros Hm1 Hd1 Hm2 Hd2. unfold days_before_month, days_in_month in *.
  destruct (is_leap y);
    destruct (month_cases m1 Hm1) as [->|[->|[->|[->|[->|[->|[->|[->|[->|[->|[->| ->]]]]]]]]]]];
    destruct (month_cases m2 Hm2) as [->|[->|[->|[->|[->|[->|[->|[->|[->|[->|[->| ->]]]]]]]]]]];
    eval_tables; simpl in *; lia.
Qed.

Lemma ymd2ord_inj y1 m1 d1 y2 m2 d2 :
  1 <= m1 <= 12 -> 1 <= d1 <= days_in_month y1 m1 ->
  1 <= m2 <= 12 -> 1 <= d2 <= days_in_month y2 m2 ->
  ymd2ord y1 m1 d1 = ymd2ord y2 m2 d2 ->
  y1 = y2 /\ m1 = m2 /\ d1 = d2.
Proof.
  intros Hm1 Hd1 Hm2 Hd2 Heq. unfold ymd2ord in Heq.
  pose proof (days_before_month_bound _ _ _ Hm1 Hd1) as B1.
  pose proof (days_before_month_bound _ _ _ Hm2 Hd2) as B2.
  pose proof (days_in_year y1) as N1. pose proof (days_in_year y2) as N2.
  assert (y1 = y2) as <-.
  { destruct (Z.lt_trichotomy y1 y2) as [Hlt|[Heq'|Hgt]]; [|exact Heq'|].
    - pose proof (days_before_year_mono (y1 + 1) y2 ltac:(lia)).
      destruct (is_leap y1), (is_leap y2); lia.
    - pose proof (days_before_year_mono (y2 + 1) y1 ltac:(lia)).
      destruct (is_leap y1), (is_leap y2); lia. }
  split; [reflexivity|].
  apply (days_before_month_inj y1); auto. lia.
Qed.

(** Two well-formed [datetime]s in the same time zone that denote the same
    instant are the same. *)
Lemma dt_micros_inj a b :
  valid_datetime a -> valid_datetime b -> tzinfo a = tzinfo b ->
  dt_micros a = dt_micros b -> a = b.
Proof.
  intros (_ & Hma & Hda & Hha & Hmia & Hsa & Hua)
         (_ & Hmb & Hdb & Hhb & Hmib & Hsb & Hub) Htz Heq.
  unfold dt_micros, toordinal in Heq.
  assert (Hord : ymd2ord (year a) (month a) (day a)
                 = ymd2ord (year b) (month b) (day b)) by lia.
  apply ymd2ord_inj in Hord as (Hy & Hm & Hd); auto.
  destruct a, b; simpl in *. subst. f_equal; lia.
Qed.

(** ** Effects of the credential resolver *)

Lemma no_provider_call_ret {A} (a : A) : no_provider_call (ret a).
Proof. intros w. exists []. simpl. rewrite app_nil_r. auto. Qed.

Lemma no_provider_call_raise {A} (e : exn) : no_provider_call (@raise A e).
Proof. intros w. exists []. simpl. rewrite app_nil_r. auto. Qed.

Lemma no_provider_call_lift_lib {A} (r : string + A) : no_provider_call (lift_lib r).
Proof.
  destruct r; [apply no_provider_call_raise | apply no_provider_call_ret].
Qed.

Lemma no_provider_call_emit (e : effect) :
  is_provider_call e = false -> no_provider_call (emit e).
Proof. intros He w. exists [e]. simpl. rewrite He. auto. Qed.

Lemma no_provider_call_bind {A B} (m : M A) (k : A -> M B) :
  no_provider_call m -> (forall a, no_provider_call (k a)) ->
  no_provider_call (bind m k).
Proof.
  intros Hm Hk w. unfold bind.
  destruct (Hm w) as (evs1 & Ht1 & Hp1 & Hc1 & He1).
  destruct (m w) as [[a|e] w1]; simpl in *.
  - destruct (Hk a w1) as (evs2 & Ht2 & Hp2 & Hc2 & He2).
    exists (evs1 ++ evs2)%list.
    rewrite Ht2, Ht1, Hc2, Hc1, He2, He1, forallb_app, Hp1, Hp2, app_assoc. auto.
  - exists evs1. auto.
Qed.

Lemma no_provider_call_environ_get k : no_provider_call (environ_get k).
Proof. intros w. exists []. simpl. rewrite app_nil_r. auto. Qed.

Lemma no_provider_call_path_exists path : no_provider_call (path_exists path).
Proof.
  apply no_provider_call_bind; [apply no_provider_call_emit; reflexivity|].
  intros _ w. exists []. simpl. rewrite app_nil_r. auto.
Qed.

Lemma no_provider_call_read_file path : no_provider_call (read_file path).
Proof.
  apply no_provider_call_bind; [apply no_provider_call_emit; reflexivity|].
  intros _ w. exists []. destruct (files w !! path); simpl; rewrite app_nil_r; auto.
Qed.

Lemma no_provider_call_write_file path content :
  no_provider_call (write_file path content).
Proof.
  apply no_provider_call_bind; [apply no_provider_call_emit; reflexivity|].
  intros _ w. exists []. simpl. rewrite app_nil_r. auto.
Qed.

Create HintDb frame.
#[local] Hint Resolve @no_provider_call_ret @no_provider_call_raise
  @no_provider_call_lift_lib no_provider_call_environ_get
  no_provider_call_path_exists no_provider_call_read_file
  no_provider_call_write_file : frame.

Ltac frame_step :=
  match goal with
  | |- no_provider_call (bind _ _) => apply no_provider_call_bind; [|intros ?]
  | |- no_provider_call (emit _) => apply no_provider_call_emit; reflexivity
  | |- no_provider_call (if ?b then _ else _) => destruct b
  | |- no_provider_call (match ?o with Some _ => _ | None => _ end) => destruct o
  | |- no_provider_call _ => solve [auto with frame]
  end.

(** Resolving credentials never reaches the calendar provider and never
    reads the clock. *)
Lemma get_calendar_service_no_provider_call P :
  no_provider_call (get_calendar_service P).
Proof.
  unfold get_calendar_service, local_credentials, from_authorized_user_file,
    from_client_secrets_file, run_local_server, build.
  repeat frame_step.
Qed.

Lemma get_calendar_service_unfold P w :
  get_calendar_service P w =
  bind (if env_available w
        then ret (mk_credentials None
                    (environ w !! "GOOGLE_REFRESH_TOKEN")
                    (Some "https://oauth2.googleapis.com/token")
                    (environ w !! "GOOGLE_CLIENT_ID")
                    (environ w !! "GOOGLE_CLIENT_SECRET") SCOPES)
        else local_credentials P) build w.
Proof. reflexivity. Qed.

(** With the three variables set and non-empty the resolver returns at once. *)
Lemma get_calendar_service_production P w :
  env_available w = true ->
  get_calendar_service P w =
    (OK (mk_service (mk_credentials None
           (environ w !! "GOOGLE_REFRESH_TOKEN")
           (Some "https://oauth2.googleapis.com/token")
           (environ w !! "GOOGLE_CLIENT_ID")
           (environ w !! "GOOGLE_CLIENT_SECRET") SCOPES)), w).
Proof. intros Hav. rewrite get_calendar_service_unfold, Hav. reflexivity. Qed.

Lemma bind_assoc {A B C} (m : M A) (f : A -> M B) (g : B -> M C) w :
  bind (bind m f) g w = bind m (fun a => bind (f a) g) w.
Proof. unfold bind. destruct (m w) as [[a|e] w1]; reflexivity. Qed.

Lemma bind_emit_first {A} (e : effect) (k : unit -> M A) w :
  no_provider_call (k tt) ->
  exists rest,
    trace (snd (bind (emit e) k w)) = (trace w ++ e :: rest)%list.
Proof.
  intros Hk. unfold bind, emit.
  destruct (Hk (mk_world (environ w) (files w) (ticks w) (trace w ++ [e])))
    as (evs & Ht & _).
  exists evs. rewrite Ht. simpl. rewrite <- app_assoc. reflexivity.
Qed.

(** Otherwise its first step is to look for the token file. *)
Lemma get_calendar_service_development P w :
  env_available w = false ->
  exists rest,
    trace (snd (get_calendar_service P w))
    = (trace w ++ FsExists (TOKEN_FILE P) :: rest)%list.
Proof.
  intros Hav. rewrite get_calendar_service_unfold, Hav.
  unfold local_credentials, path_exists at 1. rewrite !bind_assoc.
  apply bind_emit_first.
  unfold from_authorized_user_file, from_client_secrets_file,
    run_local_server, build.
  repeat frame_step.
  intros w'. exists []. simpl. rewrite app_nil_r. auto.
Qed.

Lemma truthy_Some s : s <> "" -> truthy (Some s) = true.
Proof.
  intros Hs. simpl. destruct (String.eqb_spec s ""); [contradiction|reflexivity].
Qed.

Lemma env_available_empty w k :
  k ∈ credential_variables -> environ w !! k = Some "" ->
  env_available w = false.
Proof.
  unfold credential_variables, env_available. intros Hk He.
  repeat (apply elem_of_cons in Hk as [->|Hk]); [| | |by apply elem_of_nil in Hk];
    rewrite He; simpl; rewrite ?andb_false_r; reflexivity.
Qed.

Lemma env_available_absent w k :
  k ∈ credential_variables -> environ w !! k = None ->
  env_available w = false.
Proof.
  unfold credential_variables, env_available. intros Hk He.
  repeat (apply elem_of_cons in Hk as [->|Hk]); [| | |by apply elem_of_nil in Hk];
    rewrite He; simpl; rewrite ?andb_false_r; reflexivity.
Qed.

Lemma environ_blind_pure {A} (r : result A) : environ_blind (fun w => (r, w)).
Proof. intros w env. reflexivity. Qed.

Lemma environ_blind_lift_lib {A} (r : string + A) : environ_blind (lift_lib r).
Proof. destruct r; apply environ_blind_pure. Qed.

Lemma environ_blind_emit e : environ_blind (emit e).
Proof. intros w env. reflexivity. Qed.

Lemma environ_blind_bind {A B} (m : M A) (k : A -> M B) :
  environ_blind m -> (forall a, environ_blind (k a)) -> environ_blind (bind m k).
Proof.
  intros Hm Hk w env. unfold bind. rewrite Hm.
  destruct (m w) as [[a|e] w1]; simpl; [apply Hk|reflexivity].
Qed.

Lemma environ_blind_path_exists path : environ_blind (path_exists path).
Proof.
  apply environ_blind_bind; [apply environ_blind_emit|].
  intros _ w env. reflexivity.
Qed.

Lemma environ_blind_read_file path : environ_blind (read_file path).
Proof.
  apply environ_blind_bind; [apply environ_blind_emit|].
  intros _ w env. simpl. destruct (files w !! path); reflexivity.
Qed.

Lemma environ_blind_write_file path content :
  environ_blind (write_file path content).
Proof.
  apply environ_blind_bind; [apply environ_blind_emit|].
  intros _ w env. reflexivity.
Qed.

Ltac blind_step :=
  match goal with
  | |- environ_blind (bind _ _) => apply environ_blind_bind; [|intros ?]
  | |- environ_blind (if ?b then _ else _) => destruct b
  | |- environ_blind (match ?o with Some _ => _ | None => _ end) => destruct o
  | |- environ_blind (ret _) => apply environ_blind_pure
  | |- environ_blind (raise _) => apply environ_blind_pure
  | |- environ_blind _ =>
      first [ apply environ_blind_lift_lib | apply environ_blind_emit
            | apply environ_blind_path_exists | apply environ_blind_read_file
            | apply environ_blind_write_file ]
  end.

Lemma local_credentials_environ_blind P : environ_blind (local_credentials P).
Proof.
  unfold local_credentials, from_authorized_user_file, from_client_secrets_file,
    run_local_server.
  repeat blind_step.
Qed.

(** Once the environment path is ruled out, the environment plays no part. *)
Lemma get_calendar_service_development_env P w env :
  env_available w = false -> env_available (with_environ env w) = false ->
  get_calendar_service P (with_environ env w)
  = (fst (get_calendar_service P w), with_environ env (snd (get_calendar_service P w))).
Proof.
  intros Hw Henv. rewrite !get_calendar_service_unfold, Hw, Henv.
  apply environ_blind_bind; [apply local_credentials_environ_blind|].
  intros c. apply environ_blind_pure.
Qed.

(** ** The credential resolver *)

(** C6, as amended: when the refresh-token, client-id and client-secret
    variables are all set to non-empty strings, [get_calendar_service] builds
    the credential bundle from them with the fixed token endpoint and returns
    in the world it started from: nothing is appended to the trace, so there
    is no file-system access (no [os.path.exists], no token file read or
    write) and no consent flow, and no file changes. *)
Theorem production_credentials_touch_nothing P w rt id secret :
  environ w !! "GOOGLE_REFRESH_TOKEN" = Some rt ->
  environ w !! "GOOGLE_CLIENT_ID" = Some id ->
  environ w !! "GOOGLE_CLIENT_SECRET" = Some secret ->
  rt <> "" -> id <> "" -> secret <> "" ->
  get_calendar_service P w =
    (OK (mk_service (mk_credentials None (Some rt)
           (Some "https://oauth2.googleapis.com/token")
           (Some id) (Some secret) SCOPES)), w)
  /\ forall evs,
       trace (snd (get_calendar_service P w)) = (trace w ++ evs)%list ->
       Forall (fun e => is_fs_access e = false /\ is_interactive e = false) evs.
Proof.
  intros Hrt Hid Hsec Nrt Nid Nsec.
  assert (Hav : env_available w = true).
  { unfold env_available. rewrite Hrt, Hid, Hsec, !truthy_Some by assumption.
    reflexivity. }
  rewrite (get_calendar_service_production P w Hav), Hrt, Hid, Hsec.
  split; [reflexivity|]. simpl. intros evs Hevs.
  assert (evs = []) as ->.
  { apply (app_inv_head (trace w)). rewrite app_nil_r. symmetry. exact Hevs. }
  constructor.
Qed.

Lemma production_credentials_touch_nothing_witness :
  get_calendar_service reference_platform production_world =
    (OK production_service, production_world)
  /\ forall evs,
       trace (snd (get_calendar_service reference_platform production_world))
       = (trace production_world ++ evs)%list ->
       Forall (fun e => is_fs_access e = false /\ is_interactive e = false) evs.
Proof.
  apply (production_credentials_touch_nothing reference_platform production_world
           "1//refresh" "id.apps.googleusercontent.com" "secret");
    first [ reflexivity | discriminate ].
Defined.

(** C6 as stated fails: with the three variables present but the refresh
    token empty, the resolver goes to the disk. *)
Lemma present_but_empty_reads_disk :
  env_all_present empty_token_world
  /\ get_calendar_service reference_platform empty_token_world =
       (Raise (FileNotFoundError
          "credentials.json not found. Please add Google OAuth credentials."),
        mk_world (environ empty_token_world) ∅ 0
          [FsExists "/app/token.json"; FsExists "/app/credentials.json"]).
Proof.
  split.
  - repeat split; eexists; reflexivity.
  - reflexivity.
Qed.

(** C9: a credential variable that is set to the empty string makes the
    environment path unavailable.  The resolver takes the development path,
    whose first step is to look for the token file, and from there on does
    exactly what it does when the variable is absent: same result, same
    effects, same files. *)
Theorem empty_variable_takes_development_path P w k :
  k ∈ credential_variables ->
  environ w !! k = Some "" ->
  is_Some (environ w !! k)
  /\ env_available w = false
  /\ (exists rest,
        trace (snd (get_calendar_service P w))
        = (trace w ++ FsExists (TOKEN_FILE P) :: rest)%list)
  /\ get_calendar_service P (with_environ (delete k (environ w)) w)
     = (fst (get_calendar_service P w),
        with_environ (delete k (environ w)) (snd (get_calendar_service P w))).
Proof.
  intros Hk He.
  pose proof (env_available_empty w k Hk He) as Hav.
  split; [eauto|]. split; [exact Hav|]. split.
  - apply get_calendar_service_development, Hav.
  - apply get_calendar_service_development_env; [exact Hav|].
    apply (env_available_absent _ k Hk). simpl. apply lookup_delete_eq.
Qed.

Lemma empty_variable_takes_development_path_witness :
  env_available empty_token_world = false
  /\ exists rest,
       trace (snd (get_calendar_service reference_platform empty_token_world))
       = FsExists "/app/token.json" :: rest.
Proof.
  destruct (empty_variable_takes_development_path reference_platform
              empty_token_world "GOOGLE_REFRESH_TOKEN")
    as (_ & Hav & Hfirst & _).
  - unfold credential_variables. apply elem_of_cons. left. reflexivity.
  - reflexivity.
  - split; [exact Hav | exact Hfirst].
Defined.

(** C7, as amended: the resolver raises the missing-credentials error
    ([FileNotFoundError], "credentials.json not found") exactly when the
    environment path is unavailable (one of the three variables missing or
    empty), the client-secrets file does not exist, and the token file is
    absent or loads to a credential that is not valid. *)
Theorem configuration_error_iff P w :
  (exists msg, fst (get_calendar_service P w) = Raise (FileNotFoundError msg))
  <-> env_available w = false
      /\ files w !! CREDENTIALS_FILE P = None
      /\ token_unusable P w.
Proof.
  unfold token_unusable.
  destruct (env_available w) eqn:Hav.
  { rewrite get_calendar_service_production by assumption. simpl.
    split; [intros [msg [=]] | intros [[=] _]]. }
  rewrite get_calendar_service_unfold, Hav.
  unfold local_credentials, path_exists, from_authorized_user_file,
    from_client_secrets_file, run_local_server, read_file, write_file,
    lift_lib, emit, bind, ret, raise, build.
  simpl.
  destruct (files w !! TOKEN_FILE P) as [content|] eqn:Htok; simpl.
  - rewrite ?Htok; simpl.
    destruct (from_authorized_user_info P content SCOPES) as [err|c] eqn:Hload;
      simpl.
    + split; [intros [msg [=]] |].
      intros (_ & _ & [[=] | (content' & c' & [= <-] & Hc & _)]). congruence.
    + destruct (credentials_valid P c) eqn:Hvalid; simpl.
      * split; [intros [msg [=]] |].
        intros (_ & _ & [[=] | (content' & c' & [= <-] & Hc & Hv)]). congruence.
      * destruct (files w !! CREDENTIALS_FILE P) as [secrets|] eqn:Hsec; simpl.
        -- rewrite ?Hsec; simpl.
           split; [|intros (_ & [=] & _)].
           destruct (load_client_secrets P secrets SCOPES); simpl;
             [intros [msg [=]]|].
           destruct (consent P _); simpl; intros [msg [=]].
        -- split; [|eauto]. intros _. split; [reflexivity|]. split; [reflexivity|].
           right. eauto.
  - destruct (files w !! CREDENTIALS_FILE P) as [secrets|] eqn:Hsec; simpl.
    + rewrite ?Hsec; simpl.
      split; [|intros (_ & [=] & _)].
      destruct (load_client_secrets P secrets SCOPES); simpl;
        [intros [msg [=]]|].
      destruct (consent P _); simpl; intros [msg [=]].
    + split; [|eauto]. intros _. auto.
Qed.

(** C7 as stated fails: here no variable is missing (the refresh token is
    set, to the empty string), yet resolution fails with the
    missing-credentials error. *)
Lemma configuration_error_with_no_variable_missing :
  env_all_present empty_token_world
  /\ files empty_token_world
       !! CREDENTIALS_FILE reference_platform = None
  /\ ~ token_usable reference_platform empty_token_world
  /\ fst (get_calendar_service reference_platform empty_token_world)
     = Raise (FileNotFoundError
         "credentials.json not found. Please add Google OAuth credentials.").
Proof.
  split; [repeat split; eexists; reflexivity|].
  split; [reflexivity|]. split; [|reflexivity].
  intros (content & c & Hf & _). discriminate Hf.
Qed.

(** A token file the auth library cannot load fails resolution with the
    library's error, before the client-secrets file is looked for. *)
Example unreadable_token_file_is_a_library_error :
  get_calendar_service reference_platform broken_token_world =
    (Raise (LibraryError "Expecting value: line 1 column 1 (char 0)"),
     mk_world ∅ (files broken_token_world) 0
       [FsExists "/app/token.json"; FsRead "/app/token.json"]).
Proof. reflexivity. Qed.

(** ** [create_event] *)

Lemma create_event_payload_inv P summary start_time duration body :
  create_event_payload P summary start_time duration = OK body ->
  exists start_dt n delta end_dt,
    fromisoformat P start_time = OK start_dt
    /\ timedelta_arg "minutes" duration = OK n
    /\ timedelta_of_minutes n = OK delta
    /\ datetime_add start_dt delta = OK end_dt
    /\ body = mk_event_body summary
                (mk_event_time (isoformat start_dt)
                   (match tzinfo start_dt with
                    | None => Some "America/Los_Angeles"
                    | Some _ => None
                    end))
                (mk_event_time (isoformat end_dt)
                   (match tzinfo start_dt with
                    | None => Some "America/Los_Angeles"
                    | Some _ => None
                    end)).
Proof.
  unfold create_event_payload. intros H.
  destruct (fromisoformat P start_time) as [start_dt|] eqn:Hs; [|discriminate].
  destruct (timedelta_arg "minutes" duration) as [n|] eqn:Hn; [|discriminate].
  simpl in H.
  destruct (timedelta_of_minutes n) as [delta|] eqn:Hd; [|discriminate].
  simpl in H.
  destruct (datetime_add start_dt delta) as [end_dt|] eqn:He; [|discriminate].
  simpl in H.
  exists start_dt, n, delta, end_dt.
  destruct (tzinfo start_dt); injection H as <-; auto.
Qed.

(** The only provider call [create_event] makes is the insertion, on the
    primary calendar, of the payload built from its arguments. *)
Lemma create_event_sends P summary start_time duration w r w' evs svc cal body :
  create_event P summary start_time duration w = (r, w') ->
  trace w' = (trace w ++ evs)%list ->
  EventsInsert svc cal body ∈ evs ->
  cal = "primary"
  /\ create_event_payload P summary start_time duration = OK body.
Proof.
  unfold create_event, bind. intros Hrun Htrace Hin.
  destruct (get_calendar_service_no_provider_call P w) as (evs1 & Ht1 & Hp1 & _).
  destruct (get_calendar_service P w) as [[svc1|e1] w1]; simpl in *.
  - unfold lift in Hrun.
    destruct (create_event_payload P summary start_time duration) as [event|e2].
    + unfold events_insert, bind, emit in Hrun.
      assert (Hevs : evs = (evs1 ++ [EventsInsert svc1 "primary" event])%list).
      { apply (app_inv_head (trace w)). rewrite <- Htrace.
        destruct (events_insert_execute P svc1 "primary" event);
          injection Hrun as _ <-; simpl; rewrite Ht1, <- app_assoc; reflexivity. }
      subst evs. apply elem_of_app in Hin as [Hin|Hin].
      * rewrite forallb_forall in Hp1.
        apply list_elem_of_In, Hp1 in Hin. discriminate Hin.
      * apply list_elem_of_singleton in Hin. injection Hin as -> -> ->. auto.
    + injection Hrun as _ <-.
      assert (evs = evs1) as -> by (apply (app_inv_head (trace w)); congruence).
      rewrite forallb_forall in Hp1.
      apply list_elem_of_In, Hp1 in Hin. discriminate Hin.
  - injection Hrun as _ <-.
    assert (evs = evs1) as -> by (apply (app_inv_head (trace w)); congruence).
    rewrite forallb_forall in Hp1.
    apply list_elem_of_In, Hp1 in Hin. discriminate Hin.
Qed.

Lemma fromisoformat_valid P v dt :
  fromisoformat P v = OK dt -> valid_datetime dt.
Proof.
  unfold fromisoformat. destruct v; try discriminate.
  destruct (parse_isoformat P s) as [raw|]; [|discriminate].
  intros H. apply datetime_new_valid in H as [-> Hv]. exact Hv.
Qed.

Lemma timedelta_of_minutes_total_us n delta :
  timedelta_of_minutes n = OK delta -> td_total_us delta = n * 60000000.
Proof.
  unfold timedelta_of_minutes. intros H.
  apply timedelta_new_spec in H as (Ht & _). lia.
Qed.

Lemma dt_micros_in_range dt : valid_datetime dt -> in_datetime_range (dt_micros dt).
Proof.
  intros Hv. pose proof (toordinal_range dt Hv) as Ho.
  destruct Hv as (_ & _ & _ & Hh & Hm & Hs & Hu).
  unfold in_datetime_range, dt_micros, MAXORDINAL in *. lia.
Qed.

(** The example of the docstring, without and with a UTC offset. *)
Example create_event_payload_naive :
  create_event_payload reference_platform (VStr "Standup")
    (VStr "2024-12-25T10:00:00") (VInt 30)
  = OK standup_body.
Proof. reflexivity. Qed.

Example create_event_payload_offset :
  create_event_payload reference_platform (VStr "Standup")
    (VStr "2024-12-31T23:45:00-07:00") (VInt 30)
  = OK new_year_body.
Proof. reflexivity. Qed.

(** C1, as amended: whatever [create_event] sends to the provider, if the
    parsed start carries no UTC offset then both [start] and [end] carry the
    label "America/Los_Angeles"; if it carries an offset then neither has a
    [timeZone], the end keeps the start's offset, and both timestamps end in
    that offset as [isoformat] renders it ([format_offset]: sign, hours and
    minutes, seconds only when the offset has them), whatever the spelling
    of the offset in the input. *)
Theorem create_event_timezone_policy
    P summary start_time duration w r w' evs svc cal body :
  create_event P summary start_time duration w = (r, w') ->
  trace w' = (trace w ++ evs)%list ->
  EventsInsert svc cal body ∈ evs ->
  exists start_dt end_dt,
    fromisoformat P start_time = OK start_dt
    /\ tzinfo end_dt = tzinfo start_dt
    /\ dateTime (eb_start body)
       = isoformat_naive start_dt +:+ format_offset (tzinfo start_dt)
    /\ dateTime (eb_end body)
       = isoformat_naive end_dt +:+ format_offset (tzinfo start_dt)
    /\ match tzinfo start_dt with
       | None =>
           timeZone (eb_start body) = Some "America/Los_Angeles"
           /\ timeZone (eb_end body) = Some "America/Los_Angeles"
       | Some _ =>
           timeZone (eb_start body) = None /\ timeZone (eb_end body) = None
       end.
Proof.
  intros Hrun Htrace Hin.
  destruct (create_event_sends _ _ _ _ _ _ _ _ _ _ _ Hrun Htrace Hin) as [_ Hpay].
  apply create_event_payload_inv in Hpay
    as (start_dt & n & delta & end_dt & Hs & _ & _ & Hadd & ->).
  apply datetime_add_exact in Hadd as (_ & Htz & _).
  exists start_dt, end_dt. simpl. unfold isoformat. rewrite Htz.
  destruct (tzinfo start_dt); repeat split; assumption.
Qed.

Lemma create_event_timezone_policy_witness :
  exists start_dt end_dt,
    fromisoformat reference_platform (VStr "2024-12-31T23:45:00-07:00")
      = OK start_dt
    /\ tzinfo end_dt = tzinfo start_dt
    /\ dateTime (eb_start new_year_body)
       = isoformat_naive start_dt +:+ format_offset (tzinfo start_dt)
    /\ dateTime (eb_end new_year_body)
       = isoformat_naive end_dt +:+ format_offset (tzinfo start_dt)
    /\ match tzinfo start_dt with
       | None =>
           timeZone (eb_start new_year_body) = Some "America/Los_Angeles"
           /\ timeZone (eb_end new_year_body) = Some "America/Los_Angeles"
       | Some _ =>
           timeZone (eb_start new_year_body) = None
           /\ timeZone (eb_end new_year_body) = None
       end.
Proof.
  apply (create_event_timezone_policy reference_platform (VStr "Standup")
           (VStr "2024-12-31T23:45:00-07:00") (VInt 30) production_world
           (OK "Event created: https://www.google.com/calendar/event?eid=1")
           (mk_world (environ production_world) ∅ 0
              [EventsInsert production_service "primary" new_year_body])
           [EventsInsert production_service "primary" new_year_body]
           production_service "primary" new_year_body).
  - reflexivity.
  - reflexivity.
  - apply list_elem_of_singleton. reflexivity.
Defined.

(** C1 as stated fails: the offset is not kept verbatim.  An input written
    with the offset [-00:00] is sent with [+00:00], in [start] and in [end]. *)
Lemma offset_spelling_is_not_preserved :
  create_event reference_platform (VStr "Standup")
    (VStr "2024-12-25T10:00:00-00:00") (VInt 30) production_world
  = (OK "Event created: https://www.google.com/calendar/event?eid=1",
     mk_world (environ production_world) ∅ 0
       [EventsInsert production_service "primary"
          (mk_event_body (VStr "Standup")
             (mk_event_time "2024-12-25T10:00:00+00:00" None)
             (mk_event_time "2024-12-25T10:30:00+00:00" None))])
  /\ "2024-12-25T10:00:00+00:00" <> "2024-12-25T10:00:00-00:00".
Proof. split; [reflexivity|discriminate]. Qed.

(** C3: whatever [create_event] sends to the provider for an integer
    [duration_minutes], its [end] is the timestamp of a well-formed
    [datetime] that lies exactly [duration_minutes] minutes after the parsed
    start, to the microsecond, in the same time zone. *)
Theorem create_event_end_is_start_plus_duration
    P summary start_time (d : Z) w r w' evs svc cal body :
  create_event P summary start_time (VInt d) w = (r, w') ->
  trace w' = (trace w ++ evs)%list ->
  EventsInsert svc cal body ∈ evs ->
  exists start_dt end_dt,
    fromisoformat P start_time = OK start_dt
    /\ dateTime (eb_start body) = isoformat start_dt
    /\ dateTime (eb_end body) = isoformat end_dt
    /\ valid_datetime end_dt
    /\ tzinfo end_dt = tzinfo start_dt
    /\ dt_micros end_dt = dt_micros start_dt + d * 60000000.
Proof.
  intros Hrun Htrace Hin.
  destruct (create_event_sends _ _ _ _ _ _ _ _ _ _ _ Hrun Htrace Hin) as [_ Hpay].
  apply create_event_payload_inv in Hpay
    as (start_dt & n & delta & end_dt & Hs & Hn & Hd & Hadd & ->).
  injection Hn as <-.
  apply datetime_add_exact in Hadd as (Hus & Htz & Hv).
  rewrite (timedelta_of_minutes_total_us _ _ Hd) in Hus.
  exists start_dt, end_dt. simpl.
  destruct (tzinfo start_dt); repeat split; try assumption; apply Hv.
Qed.

Lemma create_event_end_is_start_plus_duration_witness :
  exists start_dt end_dt,
    fromisoformat reference_platform (VStr "2024-12-25T10:00:00") = OK start_dt
    /\ dateTime (eb_start standup_body) = isoformat start_dt
    /\ dateTime (eb_end standup_body) = isoformat end_dt
    /\ valid_datetime end_dt
    /\ tzinfo end_dt = tzinfo start_dt
    /\ dt_micros end_dt = dt_micros start_dt + 30 * 60000000.
Proof.
  apply (create_event_end_is_start_plus_duration reference_platform
           (VStr "Standup") (VStr "2024-12-25T10:00:00") 30 production_world
           (OK "Event created: https://www.google.com/calendar/event?eid=1")
           (mk_world (environ production_world) ∅ 0
              [EventsInsert production_service "primary" standup_body])
           [EventsInsert production_service "primary" standup_body]
           production_service "primary" standup_body).
  - reflexivity.
  - reflexivity.
  - apply list_elem_of_singleton. reflexivity.
Defined.

(** C10, as amended: there is no check on the sign of [duration_minutes].
    For every integer duration, zero and negative ones included, such that
    start plus duration is an instant a [datetime] can hold, the payload is
    built, with [end] exactly that many minutes from the start: the start
    itself for zero, an earlier instant for a negative duration. *)
Theorem create_event_accepts_any_sign P summary start_time (d : Z) start_dt :
  fromisoformat P start_time = OK start_dt ->
  in_datetime_range (dt_micros start_dt + d * 60000000) ->
  exists body end_dt,
    create_event_payload P summary start_time (VInt d) = OK body
    /\ dateTime (eb_start body) = isoformat start_dt
    /\ dateTime (eb_end body) = isoformat end_dt
    /\ dt_micros end_dt = dt_micros start_dt + d * 60000000
    /\ (d = 0 -> end_dt = start_dt)
    /\ (d < 0 -> dt_micros end_dt < dt_micros start_dt).
Proof.
  intros Hs Hr.
  pose proof (fromisoformat_valid _ _ _ Hs) as Hv.
  pose proof (dt_micros_in_range _ Hv) as Hsr.
  unfold in_datetime_range, MAXORDINAL in *.
  destruct (timedelta_new_ok 0 (d * 60) 0 ltac:(lia)) as [delta Hd].
  pose proof (timedelta_new_spec _ _ _ _ Hd) as (Ht & Hsec & Hus & Hdays).
  destruct (datetime_add_ok start_dt delta Hv Hdays Hsec Hus) as [end_dt Hadd].
  { unfold MAXORDINAL. lia. }
  pose proof (datetime_add_exact _ _ _ Hadd) as (Hexact & Htz & Hve).
  unfold create_event_payload. rewrite Hs. simpl.
  unfold timedelta_of_minutes. rewrite Hd. simpl. rewrite Hadd. simpl.
  assert (Hend : dt_micros end_dt = dt_micros start_dt + d * 60000000) by lia.
  assert (Hzero : d = 0 -> end_dt = start_dt).
  { intros ->. apply dt_micros_inj; auto. lia. }
  destruct (tzinfo start_dt); eexists _, end_dt; simpl;
    (split; [reflexivity|]); repeat split; auto; lia.
Qed.

Lemma create_event_accepts_any_sign_witness :
  exists body end_dt,
    create_event_payload reference_platform (VStr "Standup")
      (VStr "2024-12-25T10:00:00") (VInt (-90)) = OK body
    /\ dateTime (eb_start body)
       = isoformat (mk_datetime 2024 12 25 10 0 0 0 None)
    /\ dateTime (eb_end body) = isoformat end_dt
    /\ dt_micros end_dt
       = dt_micros (mk_datetime 2024 12 25 10 0 0 0 None) + -90 * 60000000
    /\ (-90 = 0 -> end_dt = mk_datetime 2024 12 25 10 0 0 0 None)
    /\ (-90 < 0 ->
        dt_micros end_dt < dt_micros (mk_datetime 2024 12 25 10 0 0 0 None)).
Proof.
  apply (create_event_accepts_any_sign reference_platform (VStr "Standup")
           (VStr "2024-12-25T10:00:00") (-90)
           (mk_datetime 2024 12 25 10 0 0 0 None)).
  - reflexivity.
  - unfold in_datetime_range. vm_compute. split; [discriminate|reflexivity].
Defined.

(** A negative and a zero duration, run. *)
Example create_event_payload_negative_duration :
  create_event_payload reference_platform (VStr "Standup")
    (VStr "2024-12-25T10:00:00") (VInt (-90))
  = OK (mk_event_body (VStr "Standup")
          (mk_event_time "2024-12-25T10:00:00" (Some "America/Los_Angeles"))
          (mk_event_time "2024-12-25T08:30:00" (Some "America/Los_Angeles"))).
Proof. reflexivity. Qed.

Example create_event_payload_zero_duration :
  create_event_payload reference_platform (VStr "Standup")
    (VStr "2024-12-25T10:00:00") (VInt 0)
  = OK (mk_event_body (VStr "Standup")
          (mk_event_time "2024-12-25T10:00:00" (Some "America/Los_Angeles"))
          (mk_event_time "2024-12-25T10:00:00" (Some "America/Los_Angeles"))).
Proof. reflexivity. Qed.

(** C10 as stated fails: ten thousand million minutes after Christmas 2024
    is past the year 9999; the addition overflows, [create_event] raises and
    nothing is sent to the provider. *)
Lemma create_event_duration_overflow :
  create_event reference_platform (VStr "Standup")
    (VStr "2024-12-25T10:00:00") (VInt 10000000000) production_world
  = (Raise (OverflowError "date value out of range"), production_world).
Proof. reflexivity. Qed.

(** ** The dispatcher *)

(** C2, what the code does: the [HTTPException] with status 400 raised for an
    unknown tool is itself caught by [except Exception] and replaced by one
    with status 500.  The world is unchanged: no credential is resolved and
    no provider call is made. *)
Theorem unknown_tool_answers_500 P nm args w :
  nm <> "list_events" -> nm <> "create_event" ->
  call_tool P (mk_request nm args) w
  = (Raise (HTTPException 500 ("400: Unknown tool: " +:+ nm)), w)
  /\ http_status (fst (call_tool P (mk_request nm args) w)) = 500.
Proof.
  intros H1 H2. unfold call_tool, try_except. simpl.
  destruct (String.eqb_spec nm "list_events"); [contradiction|].
  destruct (String.eqb_spec nm "create_event"); [contradiction|].
  split; reflexivity.
Qed.

Lemma unknown_tool_answers_500_witness :
  call_tool reference_platform (mk_request "delete_event" ∅) production_world
  = (Raise (HTTPException 500 "400: Unknown tool: delete_event"),
     production_world)
  /\ http_status
       (fst (call_tool reference_platform (mk_request "delete_event" ∅)
               production_world)) = 500.
Proof.
  apply (unknown_tool_answers_500 reference_platform "delete_event" ∅
           production_world); discriminate.
Defined.

(** C8: a [create_event] call without [summary] or without [start_time]
    fails on the missing key before [create_event] is entered; the failure
    reaches the client as an HTTP failure whose detail names the key, and the
    world is unchanged: no credential is resolved, no provider call is made. *)
Theorem create_event_missing_argument P args w :
  args !! "summary" = None \/ args !! "start_time" = None ->
  exists key,
    (key = "summary" \/ key = "start_time")
    /\ args !! key = None
    /\ call_tool P (mk_request "create_event" args) w
       = (Raise (HTTPException 500 (str_exn (KeyError key))), w)
    /\ ~ 200 <= http_status (fst (call_tool P (mk_request "create_event" args) w))
          < 300.
Proof.
  intros Hmiss. unfold call_tool, try_except, subscript, bind. simpl.
  destruct (args !! "summary") as [summary|] eqn:Hsum.
  - destruct Hmiss as [[=]|Hst]. rewrite Hst.
    exists "start_time". simpl. repeat split; auto. lia.
  - exists "summary". rewrite Hsum. simpl. repeat split; auto. lia.
Qed.

Lemma create_event_missing_argument_witness :
  exists key,
    (key = "summary" \/ key = "start_time")
    /\ (<["summary" := VStr "Standup"]> ∅ : gmap string pyval) !! key = None
    /\ call_tool reference_platform
         (mk_request "create_event" (<["summary" := VStr "Standup"]> ∅))
         production_world
       = (Raise (HTTPException 500 (str_exn (KeyError key))), production_world)
    /\ ~ 200 <= http_status
                  (fst (call_tool reference_platform
                          (mk_request "create_event"
                             (<["summary" := VStr "Standup"]> ∅))
                          production_world))
          < 300.
Proof.
  apply (create_event_missing_argument reference_platform
           (<["summary" := VStr "Standup"]> ∅) production_world).
  right. reflexivity.
Defined.

(** ** [list_events] *)

Lemma has_char_append c a b :
  has_char c (a +:+ b) = has_char c a || has_char c b.
Proof.
  induction a as [|x a IH]; simpl; [reflexivity|].
  rewrite IH, orb_assoc. reflexivity.
Qed.

Lemma has_char_concat c sep line lines :
  has_char c line = true -> has_char c (String.concat sep (line :: lines)) = true.
Proof.
  intros H. destruct lines as [|l lines]; simpl; [exact H|].
  fold (line +:+ (sep +:+ String.concat sep (l :: lines))).
  rewrite has_char_append, H. reflexivity.
Qed.

Lemma format_event_has_colon ev line :
  format_event ev = OK line -> has_char COLON line = true.
Proof.
  unfold format_event.
  destruct (ev_start ev) as [st|]; [|discriminate].
  destruct (ev_summary ev) as [summary|]; [|discriminate].
  intros [= <-]. rewrite !has_char_append. simpl. apply orb_true_r.
Qed.

Lemma format_lines_spec events lines :
  format_lines events = OK lines ->
  Forall2 (fun ev line => format_event ev = OK line) events lines.
Proof.
  revert lines. induction events as [|ev events IH]; simpl; intros lines H.
  - injection H as <-. constructor.
  - destruct (format_event ev) as [line|] eqn:Hev; [|discriminate].
    simpl in H.
    destruct (format_lines events) as [rest|]; [|discriminate].
    injection H as <-. constructor; auto.
Qed.

(** Lines 164-174 return the sentinel for an empty result and for nothing
    else: every formatted line has a colon, the sentinel has none. *)
Lemma format_events_spec r s :
  format_events r = OK s ->
  (s = NO_EVENTS <-> default [] (items r) = [])
  /\ (default [] (items r) <> [] ->
      exists lines,
        Forall2 (fun ev line => format_event ev = OK line)
          (default [] (items r)) lines
        /\ s = String.concat NEWLINE lines).
Proof.
  unfold format_events.
  destruct (default [] (items r)) as [|ev events] eqn:Hev.
  - intros [= <-]. split; [tauto|]. intros Hne. contradiction.
  - intros H.
    destruct (format_lines (ev :: events)) as [lines|] eqn:Hl; [|discriminate].
    injection H as <-.
    pose proof (format_lines_spec _ _ Hl) as Hall.
    split; [|eauto].
    split; [|discriminate]. intros Heq. exfalso.
    inversion Hall as [|? line ? rest Hline Hrest]; subst.
    apply format_event_has_colon in Hline.
    apply (has_char_concat COLON NEWLINE line rest) in Hline.
    rewrite Heq in Hline. discriminate Hline.
Qed.

Lemma format_events_empty r :
  default [] (items r) = [] -> format_events r = OK NO_EVENTS.
Proof. unfold format_events. intros ->. reflexivity. Qed.

(** [list_events] is its query, one provider call, and the formatting. *)
Lemma list_events_run P days w :
  list_events P days w =
  match list_events_query P days w with
  | (OK (svc, q), w1) =>
      let w2 := mk_world (environ w1) (files w1) (ticks w1)
                  (trace w1 ++ [EventsList svc q]) in
      match events_list_execute P svc q with
      | inr r => (format_events r, w2)
      | inl msg => (Raise (LibraryError msg), w2)
      end
  | (Raise e, w1) => (Raise e, w1)
  end.
Proof.
  unfold list_events, bind.
  destruct (list_events_query P days w) as [[[svc q]|e] w1]; [|reflexivity].
  unfold events_list, bind, emit, lift. simpl.
  destruct (events_list_execute P svc q); reflexivity.
Qed.

Lemma format_event_line ev line :
  format_event ev = OK line ->
  exists st summary,
    ev_start ev = Some st /\ ev_summary ev = Some summary
    /\ line = match start_dateTime st with
              | Some t => t
              | None => match start_date st with
                        | Some t => t
                        | None => "None"
                        end
              end +:+ ": " +:+ summary.
Proof.
  unfold format_event.
  destruct (ev_start ev) as [st|]; [|discriminate].
  destruct (ev_summary ev) as [summary|]; [|discriminate].
  intros [= <-]. exists st, summary. split; [reflexivity|]. split; [reflexivity|].
  destruct (start_dateTime st); [reflexivity|].
  destruct (start_date st); reflexivity.
Qed.

(** C4: [list_events] returns the string "No upcoming events found." when
    the provider returns zero events (an empty [items] or none at all), and
    whenever it returns that string the provider was asked and returned zero
    events; a non-empty result comes back as one line per event,
    "<start>: <summary>" with [start] the event's [dateTime], or its [date]
    when it has no [dateTime], joined by the newline character. *)
Theorem list_events_sentinel P days w :
  (forall svc q w1 r,
     list_events_query P days w = (OK (svc, q), w1) ->
     events_list_execute P svc q = inr r ->
     default [] (items r) = [] ->
     fst (list_events P days w) = OK "No upcoming events found.")
  /\ (forall s,
        fst (list_events P days w) = OK s ->
        exists svc q w1 r,
          list_events_query P days w = (OK (svc, q), w1)
          /\ events_list_execute P svc q = inr r
          /\ (s = "No upcoming events found." <-> default [] (items r) = [])
          /\ (default [] (items r) <> [] ->
              exists lines,
                Forall2
                  (fun ev line =>
                     exists st summary,
                       ev_start ev = Some st /\ ev_summary ev = Some summary
                       /\ line = match start_dateTime st with
                                 | Some t => t
                                 | None => match start_date st with
                                           | Some t => t
                                           | None => "None"
                                           end
                                 end +:+ ": " +:+ summary)
                  (default [] (items r)) lines
                /\ s = String.concat (String (Ascii.ascii_of_nat 10) "") lines)).
Proof.
  split.
  - intros svc q w1 r Hq Hr Hempty.
    rewrite list_events_run, Hq, Hr. simpl. apply format_events_empty, Hempty.
  - intros s Hs. rewrite list_events_run in Hs.
    destruct (list_events_query P days w) as [[[svc q]|e] w1]; [|discriminate].
    destruct (events_list_execute P svc q) as [msg|r] eqn:Hr; [discriminate|].
    simpl in Hs. exists svc, q, w1, r.
    destruct (format_events_spec _ _ Hs) as [Hiff Hlines].
    split; [reflexivity|]. split; [exact Hr|]. split; [exact Hiff|].
    intros Hne. destruct (Hlines Hne) as (lines & Hall & ->).
    exists lines. split; [|reflexivity].
    eapply Forall2_impl; [exact Hall|]. intros ev line. apply format_event_line.
Qed.

Lemma list_events_sentinel_witness :
  fst (list_events reference_platform (VInt 7) production_world)
  = OK "No upcoming events found."
  /\ exists svc q w1 r,
       list_events_query busy_platform (VInt 7) production_world
         = (OK (svc, q), w1)
       /\ events_list_execute busy_platform svc q = inr r
       /\ ("2024-01-02T09:00:00-08:00: Standup"
           +:+ String (Ascii.ascii_of_nat 10) "2024-01-03: Holiday"
           = "No upcoming events found."
           <-> default [] (items r) = [])
       /\ (default [] (items r) <> [] ->
           exists lines,
             Forall2
               (fun ev line =>
                  exists st summary,
                    ev_start ev = Some st /\ ev_summary ev = Some summary
                    /\ line = match start_dateTime st with
                              | Some t => t
                              | None => match start_date st with
                                        | Some t => t
                                        | None => "None"
                                        end
                              end +:+ ": " +:+ summary)
               (default [] (items r)) lines
             /\ "2024-01-02T09:00:00-08:00: Standup"
                +:+ String (Ascii.ascii_of_nat 10) "2024-01-03: Holiday"
                = String.concat (String (Ascii.ascii_of_nat 10) "") lines).
Proof.
  split.
  - apply (proj1 (list_events_sentinel reference_platform (VInt 7)
                    production_world)
             production_service
             (mk_list_query "primary" "2024-01-01T00:00:00Z"
                "2024-01-08T00:00:00.000001Z" 10 true "startTime")
             (mk_world (environ production_world) ∅ 2 [])
             (mk_events_result (Some []))); reflexivity.
  - apply (proj2 (list_events_sentinel busy_platform (VInt 7) production_world)).
    reflexivity.
Defined.

(** The two listings, run: an empty calendar, and one with a timed and an
    all-day event. *)
Example list_events_empty_calendar :
  fst (call_tool reference_platform (mk_request "list_events" ∅)
         production_world)
  = OK (mk_response [mk_content "text" "No upcoming events found."]).
Proof. reflexivity. Qed.

Example list_events_two_events :
  fst (list_events busy_platform (VInt 7) production_world)
  = OK ("2024-01-02T09:00:00-08:00: Standup"
        +:+ String (Ascii.ascii_of_nat 10) "2024-01-03: Holiday").
Proof. reflexivity. Qed.

(** Lines 150-162, step by step: the credentials, two readings of the clock,
    the sum, the query. *)
Lemma list_events_query_run P (d : Z) w :
  list_events_query P (VInt d) w =
  match get_calendar_service P w with
  | (OK svc, w1) =>
      let w2 := mk_world (environ w1) (files w1) (S (S (ticks w1))) (trace w1) in
      match result_bind (timedelta_of_days d)
              (datetime_add (clock P (S (ticks w1)))) with
      | OK later =>
          (OK (svc, mk_list_query "primary"
                      (isoformat (clock P (ticks w1)) +:+ "Z")
                      (isoformat later +:+ "Z") 10 true "startTime"), w2)
      | Raise e => (Raise e, w2)
      end
  | (Raise e, w1) => (Raise e, w1)
  end.
Proof.
  unfold list_events_query, bind.
  destruct (get_calendar_service P w) as [[svc|e] w1]; [|reflexivity].
  unfold utcnow, lift. simpl.
  destruct (timedelta_of_days d) as [delta|]; [|reflexivity]. simpl.
  destruct (datetime_add _ delta); reflexivity.
Qed.

Lemma get_calendar_service_ticks P w :
  ticks (snd (get_calendar_service P w)) = ticks w.
Proof.
  destruct (get_calendar_service_no_provider_call P w) as (_ & _ & _ & Ht & _).
  exact Ht.
Qed.

(** C5, as amended: for an integer [days_ahead] such that the second clock
    reading plus [days_ahead] days is an instant a [datetime] can hold, the
    provider is asked once, for calendar "primary", from the first clock
    reading to the second reading plus exactly [days_ahead] days (both naive
    UTC readings, printed with a "Z"), with [maxResults] 10, [singleEvents]
    true and [orderBy] "startTime".  The window is thus [days_ahead] days
    plus the time between the two readings.  The text returned is the
    sentinel for zero events and otherwise one formatted line per event the
    provider returned, in its order, joined by newlines: as many lines as
    events, hence at most 10 when the provider honours [maxResults]. *)
Theorem list_events_window P (d : Z) w svc w1 :
  get_calendar_service P w = (OK svc, w1) ->
  valid_datetime (clock P (S (ticks w))) ->
  in_datetime_range (dt_micros (clock P (S (ticks w))) + d * 86400000000) ->
  exists later w2,
    valid_datetime later
    /\ tzinfo later = tzinfo (clock P (S (ticks w)))
    /\ dt_micros later = dt_micros (clock P (S (ticks w))) + d * 86400000000
    /\ dt_micros later - dt_micros (clock P (ticks w))
       = d * 86400000000
         + (dt_micros (clock P (S (ticks w))) - dt_micros (clock P (ticks w)))
    /\ list_events_query P (VInt d) w
       = (OK (svc, mk_list_query "primary"
                     (isoformat (clock P (ticks w)) +:+ "Z")
                     (isoformat later +:+ "Z") 10 true "startTime"), w2)
    /\ trace (snd (list_events P (VInt d) w))
       = (trace w1
          ++ [EventsList svc
                (mk_list_query "primary"
                   (isoformat (clock P (ticks w)) +:+ "Z")
                   (isoformat later +:+ "Z") 10 true "startTime")])%list
    /\ (forall s,
          fst (list_events P (VInt d) w) = OK s ->
          exists r,
            events_list_execute P svc
              (mk_list_query "primary"
                 (isoformat (clock P (ticks w)) +:+ "Z")
                 (isoformat later +:+ "Z") 10 true "startTime") = inr r
            /\ ((default [] (items r) = [] /\ s = "No upcoming events found.")
                \/ (exists lines,
                      Forall2 (fun ev line => format_event ev = OK line)
                        (default [] (items r)) lines
                      /\ length lines = length (default [] (items r))
                      /\ (1 <= length lines)%nat
                      /\ s = String.concat (String (Ascii.ascii_of_nat 10) "")
                               lines))
            /\ (provider_honours_limit P ->
                (length (default [] (items r)) <= 10)%nat)).
Proof.
  intros Hsvc Hv Hr.
  pose proof (get_calendar_service_ticks P w) as Hticks.
  rewrite Hsvc in Hticks. simpl in Hticks.
  pose proof (dt_micros_in_range _ Hv) as Hsr.
  unfold in_datetime_range, MAXORDINAL in *.
  destruct (timedelta_new_ok d 0 0 ltac:(lia)) as [delta Hd].
  pose proof (timedelta_new_spec _ _ _ _ Hd) as (Ht & Hsec & Hus & Hdays).
  destruct (datetime_add_ok (clock P (S (ticks w))) delta Hv Hdays Hsec Hus)
    as [later Hadd].
  { unfold MAXORDINAL. lia. }
  pose proof (datetime_add_exact _ _ _ Hadd) as (Hexact & Htz & Hvl).
  assert (Hq : list_events_query P (VInt d) w
               = (OK (svc, mk_list_query "primary"
                             (isoformat (clock P (ticks w)) +:+ "Z")
                             (isoformat later +:+ "Z") 10 true "startTime"),
                  mk_world (environ w1) (files w1) (S (S (ticks w1))) (trace w1))).
  { rewrite list_events_query_run, Hsvc. simpl. rewrite Hticks.
    unfold timedelta_of_days. rewrite Hd. simpl. rewrite Hadd. reflexivity. }
  exists later, (mk_world (environ w1) (files w1) (S (S (ticks w1))) (trace w1)).
  split; [exact Hvl|]. split; [exact Htz|]. split; [lia|]. split; [lia|].
  split; [exact Hq|]. split.
  - rewrite list_events_run, Hq. simpl.
    destruct (events_list_execute P svc _); reflexivity.
  - intros s Hs. rewrite list_events_run, Hq in Hs. simpl in Hs.
    destruct (events_list_execute P svc _) as [msg|r] eqn:Hex; [discriminate|].
    simpl in Hs. exists r. split; [reflexivity|].
    destruct (format_events_spec _ _ Hs) as [Hiff Hlines]. split.
    + destruct (default [] (items r)) as [|ev events] eqn:Hev.
      * left. split; [reflexivity|]. apply Hiff. reflexivity.
      * right. destruct Hlines as (lines & Hall & ->); [discriminate|].
        exists lines. pose proof (Forall2_length _ _ _ Hall) as Hlen.
        split; [exact Hall|]. split; [auto|]. split; [|reflexivity].
        rewrite <- Hlen. simpl. lia.
    + intros Hlimit. apply Hlimit in Hex; [|simpl; lia]. simpl in Hex. lia.
Qed.

Lemma list_events_window_witness :
  exists later w2,
    valid_datetime later
    /\ tzinfo later = tzinfo (clock busy_platform 1)
    /\ dt_micros later = dt_micros (clock busy_platform 1) + 1 * 86400000000
    /\ dt_micros later - dt_micros (clock busy_platform 0)
       = 1 * 86400000000
         + (dt_micros (clock busy_platform 1) - dt_micros (clock busy_platform 0))
    /\ list_events_query busy_platform (VInt 1) production_world
       = (OK (production_service,
              mk_list_query "primary"
                (isoformat (clock busy_platform 0) +:+ "Z")
                (isoformat later +:+ "Z") 10 true "startTime"), w2)
    /\ trace (snd (list_events busy_platform (VInt 1) production_world))
       = (trace production_world
          ++ [EventsList production_service
                (mk_list_query "primary"
                   (isoformat (clock busy_platform 0) +:+ "Z")
                   (isoformat later +:+ "Z") 10 true "startTime")])%list
    /\ (forall s,
          fst (list_events busy_platform (VInt 1) production_world) = OK s ->
          exists r,
            events_list_execute busy_platform production_service
              (mk_list_query "primary"
                 (isoformat (clock busy_platform 0) +:+ "Z")
                 (isoformat later +:+ "Z") 10 true "startTime") = inr r
            /\ ((default [] (items r) = [] /\ s = "No upcoming events found.")
                \/ (exists lines,
                      Forall2 (fun ev line => format_event ev = OK line)
                        (default [] (items r)) lines
                      /\ length lines = length (default [] (items r))
                      /\ (1 <= length lines)%nat
                      /\ s = String.concat (String (Ascii.ascii_of_nat 10) "")
                               lines))
            /\ (provider_honours_limit busy_platform ->
                (length (default [] (items r)) <= 10)%nat)).
Proof.
  apply (list_events_window busy_platform 1 production_world
           production_service production_world).
  - reflexivity.
  - unfold valid_datetime. vm_compute. repeat split; discriminate.
  - unfold in_datetime_range. vm_compute. split; [discriminate|reflexivity].
Defined.

(** The reference provider honours the limit. *)
Example reference_platform_honours_limit :
  provider_honours_limit reference_platform.
Proof. intros svc q r Hq [= <-]. simpl. exact Hq. Qed.

(** C5 as stated fails three times.  With two clock readings one microsecond
    apart, [days_ahead = 1] asks for a window of 24 hours and one
    microsecond; ten million days ahead is past the year 9999, so the call
    raises before any query is made; and when the provider returns twelve
    events in spite of [maxResults], twelve lines come back, since the code
    does not truncate. *)
Lemma list_events_window_is_not_24_hours :
  (exists w2,
     list_events_query reference_platform (VInt 1) production_world
     = (OK (production_service,
            mk_list_query "primary"
              (isoformat (mk_datetime 2024 1 1 0 0 0 0 None) +:+ "Z")
              (isoformat (mk_datetime 2024 1 2 0 0 0 1 None) +:+ "Z")
              10 true "startTime"), w2))
  /\ dt_micros (mk_datetime 2024 1 2 0 0 0 1 None)
     - dt_micros (mk_datetime 2024 1 1 0 0 0 0 None) <> 24 * 3600 * 1000000
  /\ list_events reference_platform (VInt 10000000) production_world
     = (Raise (OverflowError "date value out of range"),
        mk_world (environ production_world) ∅ 2 [])
  /\ fst (list_events crowded_platform (VInt 1) production_world)
     = OK (String.concat (String (Ascii.ascii_of_nat 10) "")
             (replicate 12 "2024-01-02: Busy"))
  /\ (10 < length (replicate 12 "2024-01-02: Busy"))%nat.
Proof.
  split; [exists (mk_world (environ production_world) ∅ 2 []); reflexivity|].
  split; [vm_compute; discriminate|].
  split; [reflexivity|]. split; [reflexivity|]. simpl. lia.
Qed.

(** * Beyond the claims *)

(** ** The credential resolver, case by case *)

Lemma new_effects_app w w' evs :
  trace w' = (trace w ++ evs)%list -> new_effects w w' = evs.
Proof. unfold new_effects. intros ->. apply drop_app_length. Qed.

Lemma authenticate_run P w :
  authenticate P w =
  match files w !! CREDENTIALS_FILE P with
  | None =>
      (Raise (FileNotFoundError
         "credentials.json not found. Please add Google OAuth credentials."),
       add_effects [FsExists (CREDENTIALS_FILE P)] w)
  | Some secrets =>
      match load_client_secrets P secrets SCOPES with
      | inl msg =>
          (Raise (LibraryError msg),
           add_effects [FsExists (CREDENTIALS_FILE P);
                        FsRead (CREDENTIALS_FILE P)] w)
      | inr f =>
          match consent P f with
          | inl msg =>
              (Raise (LibraryError msg),
               add_effects [FsExists (CREDENTIALS_FILE P);
                            FsRead (CREDENTIALS_FILE P); ConsentFlow f] w)
          | inr c =>
              (OK c,
               mk_world (environ w)
                 (<[TOKEN_FILE P := to_json P c]> (files w)) (ticks w)
                 (trace w ++ [FsExists (CREDENTIALS_FILE P);
                              FsRead (CREDENTIALS_FILE P); ConsentFlow f;
                              FsWrite (TOKEN_FILE P) (to_json P c)]))
          end
      end
  end.
Proof.
  unfold authenticate, path_exists, from_client_secrets_file, run_local_server,
    read_file, write_file, lift_lib, emit, bind, ret, raise, add_effects.
  simpl.
  destruct (files w !! CREDENTIALS_FILE P) as [secrets|] eqn:Hsec; simpl;
    rewrite ?Hsec; simpl.
  - destruct (load_client_secrets P secrets SCOPES) as [msg|f]; simpl;
      [rewrite <- !app_assoc; reflexivity|].
    destruct (consent P f) as [msg|c]; simpl; rewrite <- !app_assoc; reflexivity.
  - reflexivity.
Qed.

Lemma local_credentials_run P w :
  local_credentials P w =
  match files w !! TOKEN_FILE P with
  | None => authenticate P (add_effects [FsExists (TOKEN_FILE P)] w)
  | Some content =>
      let w1 := add_effects [FsExists (TOKEN_FILE P); FsRead (TOKEN_FILE P)] w in
      match from_authorized_user_info P content SCOPES with
      | inl msg => (Raise (LibraryError msg), w1)
      | inr c => if credentials_valid P c then (OK c, w1) else authenticate P w1
      end
  end.
Proof.
  unfold local_credentials. fold (authenticate P).
  unfold path_exists, from_authorized_user_file, read_file, lift_lib, emit,
    bind, ret, raise, add_effects.
  simpl.
  destruct (files w !! TOKEN_FILE P) as [content|] eqn:Htok; simpl;
    rewrite ?Htok; simpl; [|reflexivity].
  destruct (from_authorized_user_info P content SCOPES) as [msg|c]; simpl;
    rewrite <- ?app_assoc; [reflexivity|].
  destruct (credentials_valid P c); reflexivity.
Qed.

Lemma append_inv_head (pre a b : string) : pre +:+ a = pre +:+ b -> a = b.
Proof.
  induction pre as [|c pre IH]; simpl; intros H; [exact H|].
  injection H as H. auto.
Qed.

Lemma path_join_inj dir a b : path_join dir a = path_join dir b -> a = b.
Proof.
  unfold path_join.
  destruct (String.eqb dir ""); [auto|].
  destruct (String.eqb _ "/"); intros H.
  - exact (append_inv_head _ _ _ H).
  - apply append_inv_head in H. exact (append_inv_head "/" _ _ H).
Qed.

Lemma token_file_is_not_the_secrets_file P : TOKEN_FILE P <> CREDENTIALS_FILE P.
Proof. intros H. apply path_join_inj in H. discriminate H. Qed.

Lemma get_calendar_service_run P w :
  get_calendar_service P w =
  if env_available w
  then (OK (mk_service (mk_credentials None
              (environ w !! "GOOGLE_REFRESH_TOKEN")
              (Some "https://oauth2.googleapis.com/token")
              (environ w !! "GOOGLE_CLIENT_ID")
              (environ w !! "GOOGLE_CLIENT_SECRET") SCOPES)), w)
  else match local_credentials P w with
       | (OK c, w1) => (OK (mk_service c), w1)
       | (Raise e, w1) => (Raise e, w1)
       end.
Proof.
  rewrite get_calendar_service_unfold. unfold bind.
  destruct (env_available w); reflexivity.
Qed.

(** Take [get_calendar_service] apart along its branches. *)
Ltac resolver_cases P w :=
  rewrite ?(get_calendar_service_run P w);
  destruct (env_available w) eqn:?Hav;
  [ | rewrite ?(local_credentials_run P w);
      destruct (files w !! TOKEN_FILE P) as [?content|] eqn:?Htok;
      [ destruct (from_authorized_user_info P _ SCOPES) as [?msg|?c] eqn:?Hload;
        [ | destruct (credentials_valid P _) eqn:?Hvalid ] | ];
      rewrite ?authenticate_run; cbn [files add_effects];
      repeat match goal with
      | |- context [match files w !! CREDENTIALS_FILE P with _ => _ end] =>
          destruct (files w !! CREDENTIALS_FILE P) as [?secrets|] eqn:?Hsec
      | |- context [match load_client_secrets P ?s ?sc with _ => _ end] =>
          destruct (load_client_secrets P s sc) as [?msg|?f] eqn:?Hflow
      | |- context [match consent P ?f with _ => _ end] =>
          destruct (consent P f) as [?msg|?c] eqn:?Hconsent
      end ];
  cbn [fst snd add_effects environ files ticks trace].

Ltac elem_cases H :=
  repeat (apply elem_of_cons in H as [H|H]; [try discriminate H|]);
  try (apply elem_of_nil in H; contradiction).

Ltac new_effects_norm :=
  unfold new_effects; cbn [trace add_effects];
  rewrite <- ?app_assoc, ?drop_app_length, ?drop_all; cbn [app].

(** X1. The resolver writes the token file and nothing else: every other path,
    the client-secrets file among them, holds afterwards what it held
    before, and the disk is either as it was or differs by the one write of
    the token file that the trace records. *)
Theorem resolver_writes_only_the_token_file P w :
  (forall path, path <> TOKEN_FILE P ->
     files (snd (get_calendar_service P w)) !! path = files w !! path)
  /\ files (snd (get_calendar_service P w)) !! CREDENTIALS_FILE P
     = files w !! CREDENTIALS_FILE P
  /\ (files (snd (get_calendar_service P w)) = files w
      \/ exists content,
           files (snd (get_calendar_service P w))
           = <[TOKEN_FILE P := content]> (files w)
           /\ FsWrite (TOKEN_FILE P) content
              ∈ new_effects w (snd (get_calendar_service P w))).
Proof.
  assert (Hother : forall path, path <> TOKEN_FILE P ->
            files (snd (get_calendar_service P w)) !! path = files w !! path).
  { intros path Hne. resolver_cases P w; try reflexivity;
      apply lookup_insert_ne; congruence. }
  split; [exact Hother|]. split.
  - apply Hother. intros H. symmetry in H.
    exact (token_file_is_not_the_secrets_file P H).
  - resolver_cases P w; new_effects_norm;
      first [ left; reflexivity
            | right; eexists; split; [reflexivity|];
              repeat (first [ apply list_elem_of_here
                            | apply list_elem_of_further ]) ].
Qed.

(** X2. The interactive consent flow runs only in development mode, only when no
    usable token is on disk, and only with the flow loaded from an existing
    client-secrets file. *)
Theorem consent_only_when_needed P w f :
  ConsentFlow f ∈ new_effects w (snd (get_calendar_service P w)) ->
  env_available w = false
  /\ token_unusable P w
  /\ exists secrets,
       files w !! CREDENTIALS_FILE P = Some secrets
       /\ load_client_secrets P secrets SCOPES = inr f.
Proof.
  unfold token_unusable.
  resolver_cases P w; new_effects_norm; intros H; elem_cases H;
    injection H as <-; (split; [reflexivity|]); split; eauto 8.
Qed.

Lemma consent_only_when_needed_witness :
  env_available development_world = false
  /\ token_unusable reference_platform development_world
  /\ exists secrets,
       files development_world !! CREDENTIALS_FILE reference_platform
       = Some secrets
       /\ load_client_secrets reference_platform secrets SCOPES
          = inr (mk_flow "{}" SCOPES).
Proof.
  apply (consent_only_when_needed reference_platform development_world
           (mk_flow "{}" SCOPES)).
  vm_compute. apply list_elem_of_In. simpl. auto.
Defined.

(** X3. Credentials obtained through the consent flow are the ones the flow
    returned, and they are saved: the token file holds their serialisation
    when the resolver returns. *)
Theorem interactive_login_is_persisted P w svc w' f :
  get_calendar_service P w = (OK svc, w') ->
  ConsentFlow f ∈ new_effects w w' ->
  consent P f = inr (service_credentials svc)
  /\ files w' !! TOKEN_FILE P = Some (to_json P (service_credentials svc))
  /\ FsWrite (TOKEN_FILE P) (to_json P (service_credentials svc))
     ∈ new_effects w w'.
Proof.
  intros Hrun.
  pose proof (f_equal fst Hrun) as Hres. pose proof (f_equal snd Hrun) as Hw.
  cbn [fst snd] in Hres, Hw. subst w'. clear Hrun. revert Hres.
  resolver_cases P w; new_effects_norm; intros Hres H; elem_cases H;
    try discriminate Hres;
    injection H as <-; injection Hres as <-; cbn [service_credentials];
    (split; [assumption|]); (split; [apply lookup_insert_eq|]);
    repeat (first [ apply list_elem_of_here | apply list_elem_of_further ]).
Qed.

Lemma interactive_login_is_persisted_witness :
  consent reference_platform (mk_flow "{}" SCOPES)
  = inr (mk_credentials (Some "access") (Some "refresh")
           (Some "https://oauth2.googleapis.com/token")
           (Some "id") (Some "secret") SCOPES)
  /\ files (snd (get_calendar_service reference_platform development_world))
       !! TOKEN_FILE reference_platform = Some "refresh"
  /\ FsWrite (TOKEN_FILE reference_platform) "refresh"
     ∈ new_effects development_world
         (snd (get_calendar_service reference_platform development_world)).
Proof.
  apply (interactive_login_is_persisted reference_platform development_world
           (mk_service (mk_credentials (Some "access") (Some "refresh")
              (Some "https://oauth2.googleapis.com/token")
              (Some "id") (Some "secret") SCOPES))
           (snd (get_calendar_service reference_platform development_world))
           (mk_flow "{}" SCOPES)).
  - reflexivity.
  - vm_compute. apply list_elem_of_In. simpl. auto.
Defined.

(** X4. Saving and loading compose.  After a resolution that went through the
    consent flow, if the auth library loads what was saved and finds it
    valid, the next resolution returns the loaded credentials after looking
    at the token file only: no second consent, no write. *)
Theorem saved_token_is_reused P w svc w' f c' :
  get_calendar_service P w = (OK svc, w') ->
  ConsentFlow f ∈ new_effects w w' ->
  from_authorized_user_info P (to_json P (service_credentials svc)) SCOPES
  = inr c' ->
  credentials_valid P c' = true ->
  get_calendar_service P w'
  = (OK (mk_service c'),
     add_effects [FsExists (TOKEN_FILE P); FsRead (TOKEN_FILE P)] w').
Proof.
  intros Hrun.
  pose proof (f_equal fst Hrun) as Hres. pose proof (f_equal snd Hrun) as Hw.
  cbn [fst snd] in Hres, Hw. subst w'. clear Hrun. revert Hres.
  resolver_cases P w; new_effects_norm; intros Hres H Hload' Hvalid';
    elem_cases H; try discriminate Hres;
    injection Hres as <-; cbn [service_credentials] in Hload';
    rewrite get_calendar_service_run; unfold env_available; cbn [environ];
    fold (env_available w); rewrite Hav, local_credentials_run; cbn [files];
    rewrite lookup_insert_eq; cbn zeta; rewrite Hload', Hvalid'; reflexivity.
Qed.

Lemma saved_token_is_reused_witness :
  get_calendar_service reference_platform
    (snd (get_calendar_service reference_platform development_world))
  = (OK (mk_service (mk_credentials (Some "refresh") None None None None SCOPES)),
     add_effects [FsExists (TOKEN_FILE reference_platform);
                  FsRead (TOKEN_FILE reference_platform)]
       (snd (get_calendar_service reference_platform development_world))).
Proof.
  apply (saved_token_is_reused reference_platform development_world
           (mk_service (mk_credentials (Some "access") (Some "refresh")
              (Some "https://oauth2.googleapis.com/token")
              (Some "id") (Some "secret") SCOPES))
           (snd (get_calendar_service reference_platform development_world))
           (mk_flow "{}" SCOPES)).
  - reflexivity.
  - vm_compute. apply list_elem_of_In. simpl. auto.
  - reflexivity.
  - reflexivity.
Defined.

(** ** [GET /debug] *)

Lemma length_append (a b : string) :
  String.length (a +:+ b) = (String.length a + String.length b)%nat.
Proof. induction a as [|c a IH]; simpl; [reflexivity|]. rewrite IH. reflexivity. Qed.

Lemma length_substring_0 n (s : string) :
  (String.length (String.substring 0 n s) <= n)%nat.
Proof.
  revert s. induction n as [|n IH]; intros [|c s]; simpl; try lia.
  specialize (IH s). lia.
Qed.

Lemma substring_0_is_prefix n (s : string) :
  exists rest, s = String.substring 0 n s +:+ rest.
Proof.
  revert s. induction n as [|n IH]; intros [|c s]; simpl.
  - exists "". reflexivity.
  - exists (String c s). reflexivity.
  - exists "". reflexivity.
  - destruct (IH s) as [rest Hrest]. exists rest.
    change (String c s = String c (String.substring 0 n s +:+ rest)).
    f_equal. exact Hrest.
Qed.

Lemma debug_env_run w :
  debug_env w =
  (OK (mk_debug_info
         (truthy (environ w !! "GOOGLE_REFRESH_TOKEN"))
         (truthy (environ w !! "GOOGLE_CLIENT_ID"))
         (truthy (environ w !! "GOOGLE_CLIENT_SECRET"))
         (preview (environ w !! "GOOGLE_CLIENT_ID"))
         (preview (environ w !! "GOOGLE_REFRESH_TOKEN"))), w).
Proof. reflexivity. Qed.

(** X6. [/debug] tells which mode the resolver is in: it changes nothing, and
    its three flags are all true exactly when [get_calendar_service], run in
    the same world, does not look for the token file; it then reads and
    writes no token file and runs no consent flow. *)
Theorem debug_flags_predict_production_mode P w :
  exists d,
    debug_env w = (OK d, w)
    /\ (has_refresh_token d && has_client_id d && has_client_secret d = true
        <-> FsExists (TOKEN_FILE P)
              ∉ new_effects w (snd (get_calendar_service P w)))
    /\ (has_refresh_token d && has_client_id d && has_client_secret d = true ->
        forall e, e ∈ new_effects w (snd (get_calendar_service P w)) ->
        e <> FsRead (TOKEN_FILE P)
        /\ (forall content, e <> FsWrite (TOKEN_FILE P) content)
        /\ is_interactive e = false).
Proof.
  rewrite debug_env_run. eexists. split; [reflexivity|]. simpl.
  fold (env_available w). destruct (env_available w) eqn:Hav.
  - rewrite get_calendar_service_production by assumption. simpl.
    unfold new_effects. rewrite drop_all. split.
    + split; [|reflexivity]. intros _ Hin. by apply elem_of_nil in Hin.
    + intros _ e Hin. by apply elem_of_nil in Hin.
  - destruct (get_calendar_service_development P w Hav) as [rest Hrest].
    rewrite (new_effects_app _ _ _ Hrest). split; [|discriminate].
    split; [discriminate|]. intros Hnot. destruct Hnot. apply list_elem_of_here.
Qed.

(** X7. [/debug] shows at most the first 20 characters of the client id and of
    the refresh token, each followed by "...": a preview is never longer
    than 23 characters and what precedes the dots is a prefix of the value. *)
Theorem debug_preview_is_bounded w d :
  fst (debug_env w) = OK d ->
  (String.length (client_id_preview d) <= 23)%nat
  /\ (String.length (refresh_token_preview d) <= 23)%nat
  /\ (forall value,
        environ w !! "GOOGLE_REFRESH_TOKEN" = Some value ->
        exists shown rest,
          refresh_token_preview d = shown +:+ "..."
          /\ value = shown +:+ rest
          /\ (String.length shown <= 20)%nat)
  /\ (forall value,
        environ w !! "GOOGLE_CLIENT_ID" = Some value ->
        exists shown rest,
          client_id_preview d = shown +:+ "..."
          /\ value = shown +:+ rest
          /\ (String.length shown <= 20)%nat).
Proof.
  rewrite debug_env_run. intros [= <-]. simpl. unfold preview.
  repeat split.
  - rewrite length_append. simpl.
    pose proof (length_substring_0 20
                  (default "NOT_SET" (environ w !! "GOOGLE_CLIENT_ID"))). lia.
  - rewrite length_append. simpl.
    pose proof (length_substring_0 20
                  (default "NOT_SET" (environ w !! "GOOGLE_REFRESH_TOKEN"))). lia.
  - intros value ->. destruct (substring_0_is_prefix 20 value) as [rest Hrest].
    exists (String.substring 0 20 value), rest.
    split; [reflexivity|]. split; [exact Hrest|apply length_substring_0].
  - intros value ->. destruct (substring_0_is_prefix 20 value) as [rest Hrest].
    exists (String.substring 0 20 value), rest.
    split; [reflexivity|]. split; [exact Hrest|apply length_substring_0].
Qed.

Lemma debug_preview_is_bounded_witness :
  (String.length "id.apps.googleuserco..." <= 23)%nat
  /\ (String.length "1//refresh..." <= 23)%nat
  /\ (forall value,
        environ production_world !! "GOOGLE_REFRESH_TOKEN" = Some value ->
        exists shown rest,
          "1//refresh..." = shown +:+ "..."
          /\ value = shown +:+ rest
          /\ (String.length shown <= 20)%nat)
  /\ (forall value,
        environ production_world !! "GOOGLE_CLIENT_ID" = Some value ->
        exists shown rest,
          "id.apps.googleuserco..." = shown +:+ "..."
          /\ value = shown +:+ rest
          /\ (String.length shown <= 20)%nat).
Proof.
  apply (debug_preview_is_bounded production_world
           (mk_debug_info true true true "id.apps.googleuserco..."
              "1//refresh...")).
  reflexivity.
Defined.

(** X8. [/debug] never shows the client secret: replacing it by any other
    non-empty value changes nothing in the answer. *)
Theorem debug_env_never_shows_client_secret w secret secret' :
  environ w !! "GOOGLE_CLIENT_SECRET" = Some secret ->
  secret <> "" -> secret' <> "" ->
  fst (debug_env
         (with_environ (<["GOOGLE_CLIENT_SECRET" := secret']> (environ w)) w))
  = fst (debug_env w).
Proof.
  intros Hs Hne Hne'. rewrite !debug_env_run. simpl.
  rewrite lookup_insert_eq, !lookup_insert_ne, Hs by discriminate.
  rewrite !truthy_Some by assumption. reflexivity.
Qed.

Lemma debug_env_never_shows_client_secret_witness :
  fst (debug_env
         (with_environ
            (<["GOOGLE_CLIENT_SECRET" := "another"]> (environ production_world))
            production_world))
  = fst (debug_env production_world).
Proof.
  apply (debug_env_never_shows_client_secret production_world "secret" "another");
    first [ reflexivity | discriminate ].
Defined.

(** ** The dispatcher and the two operations, as a whole *)

Lemma provider_calls_app evs1 evs2 :
  provider_calls (evs1 ++ evs2) = (provider_calls evs1 + provider_calls evs2)%nat.
Proof. unfold provider_calls. rewrite List.filter_app, length_app. reflexivity. Qed.

Lemma provider_calls_none evs :
  forallb (fun e => negb (is_provider_call e)) evs = true -> provider_calls evs = 0%nat.
Proof.
  unfold provider_calls. induction evs as [|e evs IH]; simpl; [reflexivity|].
  intros H. apply andb_true_iff in H as [He Hevs].
  destruct (is_provider_call e); [discriminate He|auto].
Qed.

Lemma at_most_quiet {A} (m : M A) :
  (forall w, trace (snd (m w)) = trace w) -> provider_calls_at_most 0 m.
Proof. intros H w. exists []. rewrite H, app_nil_r. split; [reflexivity|]. apply le_n. Qed.

Lemma at_most_weaken {A} a b (m : M A) :
  (a <= b)%nat -> provider_calls_at_most a m -> provider_calls_at_most b m.
Proof.
  intros Hab H w. destruct (H w) as (evs & Ht & Hn). exists evs. split; [exact Ht|lia].
Qed.

Lemma at_most_no_provider_call {A} (m : M A) :
  no_provider_call m -> provider_calls_at_most 0 m.
Proof.
  intros H w. destruct (H w) as (evs & Ht & Hp & _).
  exists evs. split; [exact Ht|]. rewrite (provider_calls_none _ Hp). apply le_n.
Qed.

Lemma at_most_emit e : provider_calls_at_most 1 (emit e).
Proof.
  intros w. exists [e]. split; [reflexivity|].
  unfold provider_calls. simpl. destruct (is_provider_call e); simpl; lia.
Qed.

Lemma at_most_bind {A B} a b (m : M A) (k : A -> M B) :
  provider_calls_at_most a m -> (forall x, provider_calls_at_most b (k x)) ->
  provider_calls_at_most (a + b) (bind m k).
Proof.
  intros Hm Hk w. unfold bind.
  destruct (Hm w) as (evs1 & Ht1 & Hn1).
  destruct (m w) as [[x|e] w1]; simpl in *.
  - destruct (Hk x w1) as (evs2 & Ht2 & Hn2).
    exists (evs1 ++ evs2)%list. rewrite Ht2, Ht1, app_assoc, provider_calls_app.
    split; [reflexivity|lia].
  - exists evs1. split; [exact Ht1|lia].
Qed.

Lemma at_most_try_except {A} a (m : M A) (h : exn -> M A) :
  provider_calls_at_most a m -> (forall e, provider_calls_at_most 0 (h e)) ->
  provider_calls_at_most a (try_except m h).
Proof.
  intros Hm Hh w. unfold try_except.
  destruct (Hm w) as (evs1 & Ht1 & Hn1).
  destruct (m w) as [[x|e] w1]; simpl in *.
  - exists evs1. auto.
  - destruct (Hh e w1) as (evs2 & Ht2 & Hn2).
    exists (evs1 ++ evs2)%list. rewrite Ht2, Ht1, app_assoc, provider_calls_app.
    split; [reflexivity|lia].
Qed.

Lemma at_most_list_events P days : provider_calls_at_most 1 (list_events P days).
Proof.
  unfold list_events, list_events_query, events_list.
  apply (at_most_bind 0 1).
  - apply (at_most_bind 0 0);
      [apply at_most_no_provider_call, get_calendar_service_no_provider_call|].
    intros svc. apply (at_most_bind 0 0); [apply at_most_quiet; reflexivity|].
    intros t. apply (at_most_bind 0 0); [apply at_most_quiet; reflexivity|].
    intros t'. apply (at_most_bind 0 0); [apply at_most_quiet; reflexivity|].
    intros delta. apply (at_most_bind 0 0); [apply at_most_quiet; reflexivity|].
    intros later. apply at_most_quiet. reflexivity.
  - intros request. apply (at_most_bind 1 0).
    + apply (at_most_bind 1 0); [apply at_most_emit|].
      intros _. apply at_most_quiet. intros w.
      unfold lift_lib. destruct (events_list_execute P _ _); reflexivity.
    + intros r. apply at_most_quiet. reflexivity.
Qed.

Lemma at_most_create_event P summary start_time duration :
  provider_calls_at_most 1 (create_event P summary start_time duration).
Proof.
  unfold create_event, events_insert.
  apply (at_most_bind 0 1);
    [apply at_most_no_provider_call, get_calendar_service_no_provider_call|].
  intros svc. apply (at_most_bind 0 1); [apply at_most_quiet; reflexivity|].
  intros event. apply (at_most_bind 1 0).
  - apply (at_most_bind 1 0); [apply at_most_emit|].
    intros _. apply at_most_quiet. intros w.
    unfold lift_lib. destruct (events_insert_execute P _ _ _); reflexivity.
  - intros created. apply at_most_quiet. reflexivity.
Qed.

(** X9. A request makes at most one call to the calendar provider, whatever the
    tool, the arguments and the outcome. *)
Theorem call_tool_calls_the_provider_at_most_once P request w :
  (provider_calls (new_effects w (snd (call_tool P request w))) <= 1)%nat.
Proof.
  assert (H : provider_calls_at_most 1 (call_tool P request)).
  { unfold call_tool. apply at_most_try_except.
    - destruct (String.eqb (name request) "list_events").
      + apply (at_most_bind 1 0); [apply at_most_list_events|].
        intros s. apply at_most_quiet. reflexivity.
      + destruct (String.eqb (name request) "create_event").
        * unfold subscript.
          apply (at_most_bind 0 1).
          { destruct (arguments request !! "summary");
              apply at_most_quiet; reflexivity. }
          intros summary. apply (at_most_bind 0 1).
          { destruct (arguments request !! "start_time");
              apply at_most_quiet; reflexivity. }
          intros start_time. apply (at_most_bind 1 0);
            [apply at_most_create_event|].
          intros s. apply at_most_quiet. reflexivity.
        * apply (at_most_weaken 0); [lia|]. apply at_most_quiet. reflexivity.
    - intros e. apply at_most_quiet. reflexivity. }
  destruct (H w) as (evs & Ht & Hn).
  rewrite (new_effects_app _ _ _ Ht). exact Hn.
Qed.

(** X10. Every request ends in one of two ways: a response with exactly one
    content item, of type "text", or an [HTTPException] with status 500.  No
    other exception leaves the handler and no other status is produced, 400
    included. *)
Theorem call_tool_answers_200_or_500 P request w :
  (exists s,
     fst (call_tool P request w) = OK (mk_response [mk_content "text" s])
     /\ http_status (fst (call_tool P request w)) = 200)
  \/ (exists detail,
        fst (call_tool P request w) = Raise (HTTPException 500 detail)
        /\ http_status (fst (call_tool P request w)) = 500).
Proof.
  unfold call_tool, try_except.
  destruct (String.eqb (name request) "list_events").
  - unfold bind. destruct (list_events P _ w) as [[s|e] w1]; simpl; eauto.
  - destruct (String.eqb (name request) "create_event").
    + unfold subscript, bind.
      destruct (arguments request !! "summary") as [summary|]; simpl; [|eauto].
      destruct (arguments request !! "start_time") as [start_time|]; simpl;
        [|eauto].
      destruct (create_event P _ _ _ w) as [[s|e] w1]; simpl; eauto.
    + simpl. eauto.
Qed.

(** X11. The catalog's defaults are the dispatcher's: for every tool of
    [list_tools] and every argument it declares a default for, leaving the
    argument out is the same call as passing that default. *)
Theorem omitted_argument_means_declared_default P t arg d args w :
  t ∈ tools list_tools ->
  declared_default t arg = Some d ->
  args !! arg = None ->
  call_tool P (mk_request (tool_name t) args) w
  = call_tool P (mk_request (tool_name t) (<[arg := VInt d]> args)) w.
Proof.
  intros Ht Hd Hnone. unfold list_tools in Ht. cbn [tools] in Ht.
  apply elem_of_cons in Ht as [->|Ht];
    [|apply elem_of_cons in Ht as [->|Ht]; [|by apply elem_of_nil in Ht]].
  - unfold declared_default in Hd.
    cbn [tool_inputSchema schema_properties List.find fst prop_default] in Hd.
    destruct (String.eqb_spec "days_ahead" arg) as [<-|]; [|discriminate Hd].
    injection Hd as <-.
    unfold call_tool. cbn [name arguments tool_name String.eqb Ascii.eqb Bool.eqb].
    rewrite Hnone, lookup_insert_eq. reflexivity.
  - unfold declared_default in Hd.
    cbn [tool_inputSchema schema_properties List.find fst prop_default] in Hd.
    destruct (String.eqb_spec "summary" arg); [discriminate Hd|].
    destruct (String.eqb_spec "start_time" arg); [discriminate Hd|].
    destruct (String.eqb_spec "duration_minutes" arg) as [<-|]; [|discriminate Hd].
    injection Hd as <-.
    unfold call_tool. cbn [name arguments tool_name String.eqb Ascii.eqb Bool.eqb].
    unfold subscript.
    rewrite Hnone, lookup_insert_eq, !lookup_insert_ne by discriminate.
    reflexivity.
Qed.

Lemma omitted_argument_means_declared_default_witness :
  call_tool reference_platform
    (mk_request "create_event"
       (<["summary" := VStr "Standup"]>
          (<["start_time" := VStr "2024-12-25T10:00:00"]> ∅)))
    production_world
  = call_tool reference_platform
      (mk_request "create_event"
         (<["duration_minutes" := VInt 60]>
            (<["summary" := VStr "Standup"]>
               (<["start_time" := VStr "2024-12-25T10:00:00"]> ∅))))
      production_world.
Proof.
  apply (omitted_argument_means_declared_default reference_platform
           (mk_tool "create_event" "Create a calendar event"
              (mk_input_schema "object"
                 [("summary", mk_property "string" "Event title/summary" None);
                  ("start_time",
                   mk_property "string"
                     "Start time in format: 2024-12-25T10:00:00 or 2024-12-25T10:00:00-07:00"
                     None);
                  ("duration_minutes",
                   mk_property "integer" "Event duration in minutes" (Some 60))]
                 (Some ["summary"; "start_time"])))
           "duration_minutes" 60).
  - apply list_elem_of_further, list_elem_of_here.
  - reflexivity.
  - reflexivity.
Defined.

Lemma call_tool_list_events_run P args w :
  call_tool P (mk_request "list_events" args) w =
  (match fst (list_events P (default (VInt 7) (args !! "days_ahead")) w) with
   | OK s => OK (mk_response [mk_content "text" s])
   | Raise e => Raise (HTTPException 500 (str_exn e))
   end,
   snd (list_events P (default (VInt 7) (args !! "days_ahead")) w)).
Proof.
  unfold call_tool, try_except, bind. simpl.
  destruct (list_events P _ w) as [[s|e] w1]; reflexivity.
Qed.

Lemma call_tool_create_event_run P args summary start_time w :
  args !! "summary" = Some summary ->
  args !! "start_time" = Some start_time ->
  call_tool P (mk_request "create_event" args) w =
  (match fst (create_event P summary start_time
                (default (VInt 60) (args !! "duration_minutes")) w) with
   | OK s => OK (mk_response [mk_content "text" s])
   | Raise e => Raise (HTTPException 500 (str_exn e))
   end,
   snd (create_event P summary start_time
          (default (VInt 60) (args !! "duration_minutes")) w)).
Proof.
  intros Hs Hst. unfold call_tool, try_except, subscript, bind. simpl.
  rewrite Hs, Hst. simpl.
  destruct (create_event P _ _ _ w) as [[s|e] w1]; reflexivity.
Qed.

Lemma list_events_query_fails_with_resolver P days w e :
  fst (get_calendar_service P w) = Raise e ->
  list_events P days w = (Raise e, snd (get_calendar_service P w)).
Proof.
  intros H. unfold list_events, list_events_query, bind.
  destruct (get_calendar_service P w) as [[svc|e'] w1]; simpl in *;
    [discriminate H|]. injection H as ->. reflexivity.
Qed.

Lemma create_event_run P summary start_time duration w :
  create_event P summary start_time duration w =
  match get_calendar_service P w with
  | (OK svc, w1) =>
      match create_event_payload P summary start_time duration with
      | OK body =>
          (match events_insert_execute P svc "primary" body with
           | inr created => OK ("Event created: " +:+ str_opt (htmlLink created))
           | inl msg => Raise (LibraryError msg)
           end,
           add_effects [EventsInsert svc "primary" body] w1)
      | Raise e => (Raise e, w1)
      end
  | (Raise e, w1) => (Raise e, w1)
  end.
Proof.
  unfold create_event, bind.
  destruct (get_calendar_service P w) as [[svc|e] w1]; [|reflexivity].
  unfold lift.
  destruct (create_event_payload P summary start_time duration) as [body|e];
    [|reflexivity].
  unfold events_insert, bind, emit, lift_lib, add_effects. simpl.
  destruct (events_insert_execute P svc "primary" body); reflexivity.
Qed.

(** X12. The catalog's [required] lists are enforced: for every tool of
    [list_tools], a call that lacks one of the arguments the tool declares as
    required fails on such a key with status 500, in the world it started
    from. *)
Theorem declared_required_arguments_are_enforced P t args w :
  t ∈ tools list_tools ->
  (exists k, k ∈ required_arguments t /\ args !! k = None) ->
  exists k,
    k ∈ required_arguments t
    /\ args !! k = None
    /\ call_tool P (mk_request (tool_name t) args) w
       = (Raise (HTTPException 500 (str_exn (KeyError k))), w).
Proof.
  intros Ht (k & Hk & Hnone). unfold list_tools in Ht. cbn [tools] in Ht.
  apply elem_of_cons in Ht as [->|Ht];
    [|apply elem_of_cons in Ht as [->|Ht]; [|by apply elem_of_nil in Ht]].
  - cbn in Hk. by apply elem_of_nil in Hk.
  - cbn [required_arguments tool_inputSchema schema_required default
         tool_name option_fmap option_map id] in *.
    unfold call_tool, try_except, subscript, bind.
    cbn [name arguments String.eqb Ascii.eqb Bool.eqb].
    destruct (args !! "summary") as [summary|] eqn:Hsum.
    + exists "start_time".
      apply elem_of_cons in Hk as [->|Hk]; [congruence|].
      apply elem_of_cons in Hk as [->|Hk]; [|by apply elem_of_nil in Hk].
      split; [apply list_elem_of_further, list_elem_of_here|].
      split; [exact Hnone|]. rewrite Hnone. reflexivity.
    + exists "summary". split; [apply list_elem_of_here|].
      split; [exact Hsum|reflexivity].
Qed.

Lemma declared_required_arguments_are_enforced_witness :
  exists k,
    k ∈ ["summary"; "start_time"]
    /\ (∅ : gmap string pyval) !! k = None
    /\ call_tool reference_platform (mk_request "create_event" ∅)
         production_world
       = (Raise (HTTPException 500 (str_exn (KeyError k))), production_world).
Proof.
  apply (declared_required_arguments_are_enforced reference_platform
           (mk_tool "create_event" "Create a calendar event"
              (mk_input_schema "object"
                 [("summary", mk_property "string" "Event title/summary" None);
                  ("start_time",
                   mk_property "string"
                     "Start time in format: 2024-12-25T10:00:00 or 2024-12-25T10:00:00-07:00"
                     None);
                  ("duration_minutes",
                   mk_property "integer" "Event duration in minutes" (Some 60))]
                 (Some ["summary"; "start_time"])))
           ∅ production_world).
  - apply list_elem_of_further, list_elem_of_here.
  - exists "summary". split; [apply list_elem_of_here|reflexivity].
Defined.

(** X13. A failure to resolve credentials reaches the client with its message:
    for every tool of the catalog called with its required arguments, if
    [get_calendar_service] raises [e] the answer is status 500 with detail
    [str(e)], and nothing has happened but the resolver's own effects. *)
Theorem credential_failure_is_reported P t args w e :
  t ∈ tools list_tools ->
  (forall k, k ∈ required_arguments t -> is_Some (args !! k)) ->
  fst (get_calendar_service P w) = Raise e ->
  call_tool P (mk_request (tool_name t) args) w
  = (Raise (HTTPException 500 (str_exn e)), snd (get_calendar_service P w)).
Proof.
  intros Ht Hreq He. unfold list_tools in Ht. cbn [tools] in Ht.
  apply elem_of_cons in Ht as [->|Ht];
    [|apply elem_of_cons in Ht as [->|Ht]; [|by apply elem_of_nil in Ht]].
  - cbn [tool_name]. rewrite call_tool_list_events_run.
    rewrite (list_events_query_fails_with_resolver _ _ _ _ He). reflexivity.
  - cbn [tool_name].
    destruct (Hreq "summary") as [summary Hs]; [apply list_elem_of_here|].
    destruct (Hreq "start_time") as [start_time Hst];
      [apply list_elem_of_further, list_elem_of_here|].
    rewrite (call_tool_create_event_run _ _ _ _ _ Hs Hst), create_event_run.
    destruct (get_calendar_service P w) as [[svc|e'] w1]; simpl in *;
      [discriminate He|]. injection He as ->. reflexivity.
Qed.

Lemma credential_failure_is_reported_witness :
  call_tool reference_platform (mk_request "list_events" ∅) empty_token_world
  = (Raise (HTTPException 500
       (str_exn (FileNotFoundError
          "credentials.json not found. Please add Google OAuth credentials."))),
     snd (get_calendar_service reference_platform empty_token_world)).
Proof.
  apply (credential_failure_is_reported reference_platform
           (mk_tool "list_events" "List upcoming calendar events"
              (mk_input_schema "object"
                 [("days_ahead",
                   mk_property "integer"
                     "Number of days ahead to look for events" (Some 7))]
                 None))
           ∅ empty_token_world).
  - apply list_elem_of_here.
  - intros k Hk. cbn in Hk. by apply elem_of_nil in Hk.
  - reflexivity.
Defined.

(** X14. A provider failure reaches the client with the provider's message, after
    that one call: status 500 with the message as detail, for a failed
    listing and for a failed insertion alike. *)
Theorem provider_failure_is_reported P args w :
  (forall svc q w1 msg,
     list_events_query P (default (VInt 7) (args !! "days_ahead")) w
       = (OK (svc, q), w1) ->
     events_list_execute P svc q = inl msg ->
     call_tool P (mk_request "list_events" args) w
     = (Raise (HTTPException 500 msg), add_effects [EventsList svc q] w1))
  /\ (forall summary start_time svc w1 body msg,
        args !! "summary" = Some summary ->
        args !! "start_time" = Some start_time ->
        get_calendar_service P w = (OK svc, w1) ->
        create_event_payload P summary start_time
          (default (VInt 60) (args !! "duration_minutes")) = OK body ->
        events_insert_execute P svc "primary" body = inl msg ->
        call_tool P (mk_request "create_event" args) w
        = (Raise (HTTPException 500 msg),
           add_effects [EventsInsert svc "primary" body] w1)).
Proof.
  split.
  - intros svc q w1 msg Hq Hex.
    rewrite call_tool_list_events_run, list_events_run, Hq, Hex. reflexivity.
  - intros summary start_time svc w1 body msg Hs Hst Hsvc Hpay Hex.
    rewrite (call_tool_create_event_run _ _ _ _ _ Hs Hst), create_event_run,
      Hsvc, Hpay, Hex. reflexivity.
Qed.

(** X15. [create_event] inserts an event exactly when the credentials resolve
    and the payload can be built from the arguments; the event inserted is
    then that payload, on the primary calendar.  In particular a
    [start_time] that [fromisoformat] refuses (not a string, or not an ISO
    timestamp) never reaches the provider: no provider call is made. *)
Theorem create_event_inserts_iff P summary start_time duration w :
  (forall svc cal body,
     EventsInsert svc cal body
       ∈ new_effects w (snd (create_event P summary start_time duration w))
     <-> cal = "primary"
         /\ fst (get_calendar_service P w) = OK svc
         /\ create_event_payload P summary start_time duration = OK body)
  /\ (forall e,
        fromisoformat P start_time = Raise e ->
        provider_calls
          (new_effects w (snd (create_event P summary start_time duration w)))
        = 0%nat
        /\ (forall svc, fst (get_calendar_service P w) = OK svc ->
            fst (create_event P summary start_time duration w) = Raise e)).
Proof.
  rewrite create_event_run.
  destruct (get_calendar_service_no_provider_call P w) as (evs1 & Ht1 & Hp1 & _).
  pose proof (provider_calls_none _ Hp1) as Hnone.
  rewrite forallb_forall in Hp1.
  assert (Hnot : forall s c b, EventsInsert s c b ∉ evs1).
  { intros s c b Hin. apply list_elem_of_In, Hp1 in Hin. discriminate Hin. }
  split.
  - intros svc cal body.
    destruct (get_calendar_service P w) as [[svc1|e1] w1]; cbn [fst snd] in *.
    + destruct (create_event_payload P summary start_time duration)
        as [event|e2]; cbn [fst snd].
      * unfold new_effects, add_effects. cbn [trace].
        rewrite Ht1, <- app_assoc, drop_app_length.
        rewrite elem_of_app, list_elem_of_singleton. split.
        -- intros [Hin|Heq]; [destruct (Hnot _ _ _ Hin)|].
           injection Heq as -> -> ->. auto.
        -- intros (-> & [= ->] & [= ->]). right. reflexivity.
      * rewrite (new_effects_app _ _ _ Ht1). split.
        -- intros Hin. destruct (Hnot _ _ _ Hin).
        -- intros (_ & _ & [=]).
    + rewrite (new_effects_app _ _ _ Ht1). split.
      * intros Hin. destruct (Hnot _ _ _ Hin).
      * intros (_ & [=] & _).
  - intros e He.
    assert (Hpay : create_event_payload P summary start_time duration = Raise e).
    { unfold create_event_payload. rewrite He. reflexivity. }
    rewrite Hpay.
    destruct (get_calendar_service P w) as [[svc1|e1] w1]; cbn [fst snd] in *;
      rewrite (new_effects_app _ _ _ Ht1); (split; [exact Hnone|]).
    + reflexivity.
    + intros svc [=].
Qed.

Lemma create_event_inserts_iff_witness :
  provider_calls
    (new_effects production_world
       (snd (create_event reference_platform (VStr "Standup")
               (VStr "tomorrow at ten") (VInt 30) production_world)))
  = 0%nat
  /\ (forall svc,
        fst (get_calendar_service reference_platform production_world) = OK svc ->
        fst (create_event reference_platform (VStr "Standup")
               (VStr "tomorrow at ten") (VInt 30) production_world)
        = Raise (ValueError "Invalid isoformat string: 'tomorrow at ten'")).
Proof.
  apply (proj2 (create_event_inserts_iff reference_platform (VStr "Standup")
                  (VStr "tomorrow at ten") (VInt 30) production_world)).
  reflexivity.
Defined.

Lemma format_lines_complete events :
  (exists lines, format_lines events = OK lines) <-> Forall complete_event events.
Proof.
  induction events as [|ev events IH]; simpl.
  - split; [constructor|eauto].
  - rewrite Forall_cons, <- IH. unfold format_event, complete_event.
    destruct (ev_start ev) as [st|]; simpl;
      [|split; [intros [? [=]] | intros [[[? [=]] _] _]]].
    destruct (ev_summary ev) as [sm|]; simpl;
      [|split; [intros [? [=]] | intros [[_ [? [=]]] _]]].
    destruct (format_lines events) as [lines|e]; simpl.
    + split; [intros _; repeat split; eauto | eauto].
    + split; [intros [? [=]] | intros [_ [? [=]]]].
Qed.

Lemma format_lines_first_incomplete before ev after :
  Forall complete_event before -> ~ complete_event ev ->
  format_lines (before ++ ev :: after)
  = Raise (KeyError (missing_key ev)).
Proof.
  intros Hbefore Hev. induction Hbefore as [|x before [[st Hst] [sm Hsm]] _ IH]; simpl.
  - unfold format_event, complete_event, missing_key in *.
    destruct (ev_start ev); [|reflexivity].
    destruct (ev_summary ev); [|reflexivity].
    destruct Hev. split; eauto.
  - unfold format_event at 1. rewrite Hst, Hsm. simpl. rewrite IH. reflexivity.
Qed.

(** X16. A listing succeeds only if every event the provider returned has a
    [start] and a [summary]: given the provider's answer, [list_events]
    returns a string exactly when all events are complete, and otherwise
    raises the [KeyError] of the first incomplete event (an untitled event
    fails the whole listing). *)
Theorem list_events_needs_complete_events P days w svc q w1 r :
  list_events_query P days w = (OK (svc, q), w1) ->
  events_list_execute P svc q = inr r ->
  ((exists s, fst (list_events P days w) = OK s)
   <-> Forall complete_event (default [] (items r)))
  /\ (forall before ev after,
        default [] (items r) = (before ++ ev :: after)%list ->
        Forall complete_event before -> ~ complete_event ev ->
        fst (list_events P days w)
        = Raise (KeyError (missing_key ev))).
Proof.
  intros Hq Hex. rewrite list_events_run, Hq, Hex. cbn [fst].
  unfold format_events. split.
  - destruct (default [] (items r)) as [|ev events] eqn:Hev.
    + split; [constructor|eauto].
    + rewrite <- (format_lines_complete (ev :: events)).
      destruct (format_lines (ev :: events)) as [lines|e]; simpl.
      * split; eauto.
      * split; intros [? [=]].
  - intros before ev after Heq Hbefore Hbad. rewrite Heq.
    rewrite (format_lines_first_incomplete _ _ _ Hbefore Hbad).
    destruct before; reflexivity.
Qed.

Lemma list_events_needs_complete_events_witness :
  ((exists s, fst (list_events untitled_platform (VInt 7) production_world) = OK s)
   <-> Forall complete_event
         [mk_event (Some (mk_event_start (Some "2024-01-02T09:00:00-08:00") None))
            (Some "Standup");
          mk_event (Some (mk_event_start None (Some "2024-01-03"))) None])
  /\ (forall before ev after,
        [mk_event (Some (mk_event_start (Some "2024-01-02T09:00:00-08:00") None))
           (Some "Standup");
         mk_event (Some (mk_event_start None (Some "2024-01-03"))) None]
        = (before ++ ev :: after)%list ->
        Forall complete_event before -> ~ complete_event ev ->
        fst (list_events untitled_platform (VInt 7) production_world)
        = Raise (KeyError (missing_key ev))).
Proof.
  apply (list_events_needs_complete_events untitled_platform (VInt 7)
           production_world production_service week_query
           (mk_world (environ production_world) ∅ 2 [])
           (mk_events_result (Some
              [mk_event
                 (Some (mk_event_start (Some "2024-01-02T09:00:00-08:00") None))
                 (Some "Standup");
               mk_event (Some (mk_event_start None (Some "2024-01-03"))) None])));
    reflexivity.
Defined.

(** The listing of a calendar with an untitled event, run. *)
Example list_events_untitled_event :
  call_tool untitled_platform (mk_request "list_events" ∅) production_world
  = (Raise (HTTPException 500 "'summary'"),
     mk_world (environ production_world) ∅ 2
       [EventsList production_service week_query]).
Proof. reflexivity. Qed.

Lemma provider_failure_is_reported_witness :
  call_tool failing_platform (mk_request "list_events" ∅) production_world
  = (Raise (HTTPException 500 "quota exceeded"),
     add_effects [EventsList production_service week_query]
       (mk_world (environ production_world) ∅ 2 [])).
Proof.
  apply (proj1 (provider_failure_is_reported failing_platform ∅ production_world)
           production_service week_query
           (mk_world (environ production_world) ∅ 2 []) "quota exceeded");
    reflexivity.
Defined.

(** X17. The sign of [days_ahead] is not checked.  For zero the window ends at
    the second clock reading itself, for a negative number of days it ends
    before it, and the query is issued all the same. *)
Theorem list_events_accepts_past_windows P (d : Z) w svc w1 :
  get_calendar_service P w = (OK svc, w1) ->
  valid_datetime (clock P (S (ticks w))) ->
  d <= 0 ->
  in_datetime_range (dt_micros (clock P (S (ticks w))) + d * 86400000000) ->
  exists later q w2,
    list_events_query P (VInt d) w = (OK (svc, q), w2)
    /\ timeMin q = isoformat (clock P (ticks w)) +:+ "Z"
    /\ timeMax q = isoformat later +:+ "Z"
    /\ dt_micros later = dt_micros (clock P (S (ticks w))) + d * 86400000000
    /\ (d = 0 -> later = clock P (S (ticks w)))
    /\ (d < 0 -> dt_micros later < dt_micros (clock P (S (ticks w))))
    /\ new_effects w1 (snd (list_events P (VInt d) w)) = [EventsList svc q].
Proof.
  intros Hsvc Hv Hd Hr.
  pose proof (get_calendar_service_ticks P w) as Hticks.
  rewrite Hsvc in Hticks. simpl in Hticks.
  pose proof (dt_micros_in_range _ Hv) as Hsr.
  unfold in_datetime_range, MAXORDINAL in *.
  destruct (timedelta_new_ok d 0 0 ltac:(lia)) as [delta Hdelta].
  pose proof (timedelta_new_spec _ _ _ _ Hdelta) as (Ht & Hsec & Hus & Hdays).
  destruct (datetime_add_ok (clock P (S (ticks w))) delta Hv Hdays Hsec Hus)
    as [later Hadd].
  { unfold MAXORDINAL. lia. }
  pose proof (datetime_add_exact _ _ _ Hadd) as (Hexact & Htz & Hvl).
  assert (Hq : list_events_query P (VInt d) w
               = (OK (svc, mk_list_query "primary"
                             (isoformat (clock P (ticks w)) +:+ "Z")
                             (isoformat later +:+ "Z") 10 true "startTime"),
                  mk_world (environ w1) (files w1) (S (S (ticks w1))) (trace w1))).
  { rewrite list_events_query_run, Hsvc. simpl. rewrite Hticks.
    unfold timedelta_of_days. rewrite Hdelta. simpl. rewrite Hadd. reflexivity. }
  eexists later, _, _. split; [exact Hq|]. cbn [timeMin timeMax].
  split; [reflexivity|]. split; [reflexivity|]. split; [lia|].
  split; [|split; [lia|]].
  - intros ->. apply dt_micros_inj; auto. lia.
  - rewrite list_events_run, Hq. cbn [fst snd].
    apply new_effects_app.
    destruct (events_list_execute P svc _); reflexivity.
Qed.

Lemma list_events_accepts_past_windows_witness :
  exists later q w2,
    list_events_query reference_platform (VInt (-3)) production_world
    = (OK (production_service, q), w2)
    /\ timeMin q = isoformat (clock reference_platform 0) +:+ "Z"
    /\ timeMax q = isoformat later +:+ "Z"
    /\ dt_micros later
       = dt_micros (clock reference_platform 1) + -3 * 86400000000
    /\ (-3 = 0 -> later = clock reference_platform 1)
    /\ (-3 < 0 -> dt_micros later < dt_micros (clock reference_platform 1))
    /\ new_effects production_world
         (snd (list_events reference_platform (VInt (-3)) production_world))
       = [EventsList production_service q].
Proof.
  apply (list_events_accepts_past_windows reference_platform (-3)
           production_world production_service production_world).
  - reflexivity.
  - unfold valid_datetime. vm_compute. repeat split; discriminate.
  - lia.
  - unfold in_datetime_range. vm_compute. split; [discriminate|reflexivity].
Defined.

(** A window into the past, run. *)
Example list_events_three_days_back :
  fst (list_events_query reference_platform (VInt (-3)) production_world)
  = OK (production_service,
        mk_list_query "primary" "2024-01-01T00:00:00Z"
          "2023-12-29T00:00:00.000001Z" 10 true "startTime").
Proof. reflexivity. Qed.

(** ** [auth_helper.get_refresh_token] *)

Lemma get_refresh_token_run P w :
  get_refresh_token P w =
  match files w !! HELPER_CREDENTIALS_FILE with
  | None =>
      (Raise (FileNotFoundError
         ("[Errno 2] No such file or directory: '"
          +:+ HELPER_CREDENTIALS_FILE +:+ "'")),
       add_effects [FsRead HELPER_CREDENTIALS_FILE] w)
  | Some secrets =>
      match load_client_secrets P secrets SCOPES with
      | inl msg =>
          (Raise (LibraryError msg),
           add_effects [FsRead HELPER_CREDENTIALS_FILE] w)
      | inr f =>
          (match consent P f with
           | inl msg => Raise (LibraryError msg)
           | inr c =>
               OK (mk_token_data (refresh_token c) (client_id c)
                     (client_secret c) (token_uri c))
           end,
           add_effects [FsRead HELPER_CREDENTIALS_FILE; ConsentFlow f] w)
      end
  end.
Proof.
  unfold get_refresh_token, from_client_secrets_file, run_local_server,
    read_file, lift_lib, emit, bind, ret, raise, add_effects.
  simpl.
  destruct (files w !! HELPER_CREDENTIALS_FILE) as [secrets|]; simpl;
    [|reflexivity].
  destruct (load_client_secrets P secrets SCOPES) as [msg|f]; simpl;
    [reflexivity|].
  destruct (consent P f) as [msg|c]; simpl; rewrite <- app_assoc; reflexivity.
Qed.

(** X18. The helper function changes nothing on disk and never reaches the
    provider: it reads [credentials.json] from the working directory, runs
    the consent flow if the file loads, and that is all.  Without the file
    it fails on opening it, before any consent flow. *)
Theorem get_refresh_token_leaves_the_disk_alone P w :
  files (snd (get_refresh_token P w)) = files w
  /\ environ (snd (get_refresh_token P w)) = environ w
  /\ (forall e,
        e ∈ new_effects w (snd (get_refresh_token P w)) ->
        e = FsRead HELPER_CREDENTIALS_FILE \/ exists f, e = ConsentFlow f)
  /\ (files w !! HELPER_CREDENTIALS_FILE = None ->
      new_effects w (snd (get_refresh_token P w))
      = [FsRead HELPER_CREDENTIALS_FILE]
      /\ exists msg,
           fst (get_refresh_token P w) = Raise (FileNotFoundError msg)).
Proof.
  rewrite get_refresh_token_run.
  destruct (files w !! HELPER_CREDENTIALS_FILE) as [secrets|];
    [destruct (load_client_secrets P secrets SCOPES) as [msg|f]|];
    cbn [fst snd]; new_effects_norm;
    (split; [reflexivity|]); (split; [reflexivity|]); split;
    try (intros e He; elem_cases He; subst; eauto);
    try discriminate; eauto.
Qed.

(** X19. What the helper returns is what the user consented to: on success the
    four values are the refresh token, client id, client secret and token
    endpoint of the credentials the consent flow produced, for the flow
    loaded from [credentials.json]. *)
Theorem get_refresh_token_returns_the_consented_credentials P w data :
  fst (get_refresh_token P w) = OK data ->
  exists secrets f c,
    files w !! HELPER_CREDENTIALS_FILE = Some secrets
    /\ load_client_secrets P secrets SCOPES = inr f
    /\ consent P f = inr c
    /\ data = mk_token_data (refresh_token c) (client_id c) (client_secret c)
                (token_uri c)
    /\ new_effects w (snd (get_refresh_token P w))
       = [FsRead HELPER_CREDENTIALS_FILE; ConsentFlow f].
Proof.
  rewrite get_refresh_token_run.
  destruct (files w !! HELPER_CREDENTIALS_FILE) as [secrets|]; [|discriminate].
  destruct (load_client_secrets P secrets SCOPES) as [msg|f] eqn:Hf;
    [discriminate|].
  destruct (consent P f) as [msg|c] eqn:Hc; [discriminate|].
  cbn [fst snd]. intros [= <-]. exists secrets, f, c. new_effects_norm. auto.
Qed.

Lemma get_refresh_token_returns_the_consented_credentials_witness :
  exists secrets f c,
    files helper_world !! HELPER_CREDENTIALS_FILE = Some secrets
    /\ load_client_secrets reference_platform secrets SCOPES = inr f
    /\ consent reference_platform f = inr c
    /\ mk_token_data (Some "refresh") (Some "id") (Some "secret")
         (Some "https://oauth2.googleapis.com/token")
       = mk_token_data (refresh_token c) (client_id c) (client_secret c)
           (token_uri c)
    /\ new_effects helper_world
         (snd (get_refresh_token reference_platform helper_world))
       = [FsRead HELPER_CREDENTIALS_FILE; ConsentFlow f].
Proof.
  apply (get_refresh_token_returns_the_consented_credentials reference_platform
           helper_world
           (mk_token_data (Some "refresh") (Some "id") (Some "secret")
              (Some "https://oauth2.googleapis.com/token"))).
  reflexivity.
Defined.

(** ** The answer to a successful insertion *)

(** X20. When the credentials resolve, the payload is built and the provider
    accepts it, the client gets one text item: "Event created: " followed by
    the provider's link, or by "None" when the provider's answer has no
    [htmlLink]. *)
Theorem create_event_reports_the_link
    P args summary start_time w svc w1 body created :
  args !! "summary" = Some summary ->
  args !! "start_time" = Some start_time ->
  get_calendar_service P w = (OK svc, w1) ->
  create_event_payload P summary start_time
    (default (VInt 60) (args !! "duration_minutes")) = OK body ->
  events_insert_execute P svc "primary" body = inr created ->
  call_tool P (mk_request "create_event" args) w
  = (OK (mk_response
           [mk_content "text"
              ("Event created: "
               +:+ match htmlLink created with
                   | Some link => link
                   | None => "None"
                   end)]),
     add_effects [EventsInsert svc "primary" body] w1).
Proof.
  intros Hs Hst Hsvc Hpay Hex.
  rewrite (call_tool_create_event_run _ _ _ _ _ Hs Hst), create_event_run,
    Hsvc, Hpay, Hex.
  destruct (htmlLink created); reflexivity.
Qed.

Lemma create_event_reports_the_link_witness :
  call_tool linkless_platform
    (mk_request "create_event"
       (<["summary" := VStr "Standup"]>
          (<["start_time" := VStr "2024-12-25T10:00:00"]>
             (<["duration_minutes" := VInt 30]> ∅))))
    production_world
  = (OK (mk_response [mk_content "text" ("Event created: " +:+ "None")]),
     add_effects [EventsInsert production_service "primary" standup_body]
       production_world).
Proof.
  apply (create_event_reports_the_link linkless_platform
           (<["summary" := VStr "Standup"]>
              (<["start_time" := VStr "2024-12-25T10:00:00"]>
                 (<["duration_minutes" := VInt 30]> ∅)))
           (VStr "Standup") (VStr "2024-12-25T10:00:00") production_world
           production_service production_world standup_body
           (mk_created_event None)); reflexivity.
Defined.
